(** * go-catch: the polling, filtering and rendering core of cmd/catch/main.go

    A shallow embedding of the MySQL process monitor.  The pure parts
    ([isMonitoringQuery], the keyword tests, [formatProcessOutput]) are Rocq
    functions over byte strings; the body of the endless [for] loop of
    [main] is a computation in a small monad that reads the outside world
    (clock, file system, database) through an environment and records every
    effect it performs as an event. *)

From Stdlib Require Import ZArith NArith List String Ascii Bool Lia DecimalString.
Import ListNotations.

Local Open Scope list_scope.
Local Open Scope string_scope.

(** ** Strings

    A Go string is a sequence of bytes; [string] (a list of 8-bit [ascii])
    is the same thing. *)

(** The functions of Go's package [strings] that main.go calls. *)
Module strings.

(** [strings.HasPrefix(s, prefix)]. *)
Fixpoint HasPrefix (s prefix : string) {struct prefix} : bool :=
  match prefix, s with
  | EmptyString, _ => true
  | String _ _, EmptyString => false
  | String a prefix', String b s' => Ascii.eqb a b && HasPrefix s' prefix'
  end.

(** [strings.Contains(s, substr)]: [substr] occurs in [s] at some byte
    offset; the empty string occurs in every string. *)
Fixpoint Contains (s substr : string) : bool :=
  HasPrefix s substr ||
  match s with
  | EmptyString => false
  | String _ s' => Contains s' substr
  end.

(** One byte of [strings.ToLower]: ['A'..'Z'] move to ['a'..'z']. *)
Definition lowerByte (c : ascii) : ascii :=
  let n := N_of_ascii c in
  if (65 <=? n)%N && (n <=? 90)%N then ascii_of_N (n + 32) else c.

(** [strings.ToLower(s)] as it acts on ASCII text, byte by byte.  For a
    string with bytes above 0x7f Go maps whole runes through the Unicode
    tables instead; here such bytes are left as they are. *)
Fixpoint ToLower (s : string) : string :=
  match s with
  | EmptyString => EmptyString
  | String c s' => String (lowerByte c) (ToLower s')
  end.

(** [s[n:]], for [n] up to the length of [s]. *)
Fixpoint skip (n : nat) (s : string) : string :=
  match n, s with
  | O, _ => s
  | S _, EmptyString => EmptyString
  | S n', String _ s' => skip n' s'
  end.

(** [strings.TrimPrefix(s, prefix)]. *)
Definition TrimPrefix (s prefix : string) : string :=
  if HasPrefix s prefix then skip (String.length prefix) s else s.

(** [strings.Split(s, sep)] for a separator of one byte, which is how
    main.go calls it: the pieces between the separators, in order; a
    string without separator is its own single piece. *)
Fixpoint Split (s : string) (sep : ascii) : list string :=
  match s with
  | EmptyString => [EmptyString]
  | String c s' =>
      if Ascii.eqb c sep then EmptyString :: Split s' sep
      else match Split s' sep with
           | [] => [String c EmptyString]
           | piece :: pieces => String c piece :: pieces
           end
  end.

(** The blanks of the library's table [asciiSpace]: tab, line feed,
    vertical tab, form feed, carriage return and space. *)
Definition asciiSpace (c : ascii) : bool :=
  let n := N_of_ascii c in
  ((9 <=? n)%N && (n <=? 13)%N) || (n =? 32)%N.

(** [s[start:]], [start] being the first byte that is no blank. *)
Fixpoint trimLeft (s : string) : string :=
  match s with
  | EmptyString => EmptyString
  | String c s' => if asciiSpace c then trimLeft s' else s
  end.

(** [s[:stop]], [stop] being just after the last byte that is no blank. *)
Fixpoint trimRight (s : string) : string :=
  match s with
  | EmptyString => EmptyString
  | String c s' =>
      match trimRight s' with
      | EmptyString => if asciiSpace c then EmptyString else String c EmptyString
      | String d r => String c (String d r)
      end
  end.

(** [strings.TrimSpace(s)] as the library's two loops over ASCII blanks
    compute it.  When the first or the last byte that is no ASCII blank
    is above 0x7f, Go goes on with the blanks of Unicode; the result
    differs from the one here only when a blank outside ASCII (U+0085,
    U+00A0, U+1680, U+2000 to U+200A, U+2028, U+2029, U+202F, U+205F,
    U+3000) stands at that end of the text. *)
Definition TrimSpace (s : string) : string := trimRight (trimLeft s).

End strings.

(** [fmt]'s verb [%d] on an integer: its decimal digits, with a leading
    minus sign when negative. *)
Definition itoa (n : Z) : string := NilZero.string_of_int (Z.to_int n).

(** What [fmt] needs of package [unicode/utf8]. *)
Module utf8.

Definition between (lo hi : N) (c : ascii) : bool :=
  ((lo <=? N_of_ascii c) && (N_of_ascii c <=? hi))%N.

(** A continuation byte, 0x80 to 0xBF. *)
Definition continues (c : ascii) : bool := between 128 191 c.

(** The number of bytes [for i := range s] advances over at the start of
    [String b rest]: the length of a well-formed encoding (two bytes from
    0xC2 to 0xDF, three from 0xE0 to 0xEF, four from 0xF0 to 0xF4, the
    second byte being held to a narrower range after 0xE0, 0xED, 0xF0 and
    0xF4), and one for an ASCII byte and for every byte that starts no
    well-formed encoding. *)
Definition width (b : ascii) (rest : string) : nat :=
  let n := N_of_ascii b in
  if (n <? 194)%N then 1
  else if (n <=? 223)%N then
    match rest with
    | String b1 _ => if continues b1 then 2 else 1
    | _ => 1
    end
  else if (n <=? 239)%N then
    match rest with
    | String b1 (String b2 _) =>
        if between (if (n =? 224)%N then 160 else 128)
                   (if (n =? 237)%N then 159 else 191) b1 && continues b2
        then 3 else 1
    | _ => 1
    end
  else if (n <=? 244)%N then
    match rest with
    | String b1 (String b2 (String b3 _)) =>
        if between (if (n =? 240)%N then 144 else 128)
                   (if (n =? 244)%N then 143 else 191) b1 &&
           continues b2 && continues b3
        then 4 else 1
    | _ => 1
    end
  else 1.

End utf8.

(** [fmt]'s [truncateString]: [s[:i]], [i] being the offset at which
    rune number [n] (from zero) starts, or all of [s] when it has no more
    than [n] runes.  [pending] counts the bytes of the current rune that
    are still to be copied. *)
Fixpoint truncateRunes (n pending : nat) (s : string) : string :=
  match s with
  | EmptyString => EmptyString
  | String b rest =>
      match pending with
      | S pending' => String b (truncateRunes n pending' rest)
      | O =>
          match n with
          | O => EmptyString
          | S n' => String b (truncateRunes n' (utf8.width b rest - 1) rest)
          end
      end
  end.


(** ** The colour library

    main.go colours text through github.com/fatih/color, which is not part
    of the repository.  A [Color] value is the list of attributes given to
    [color.New]; [c.SprintFunc()(s)] either returns [s] unchanged (when the
    library's global [NoColor] is set: output is not a terminal) or wraps
    it in the SGR escape sequence of the attributes and a reset. *)
Module color.

Inductive Attribute : Set :=
| Bold | FgRed | FgGreen | FgYellow | FgBlue | FgMagenta | FgCyan.

(** The SGR parameter of each attribute. *)
Definition code (a : Attribute) : Z :=
  match a with
  | Bold => 1
  | FgRed => 31 | FgGreen => 32 | FgYellow => 33
  | FgBlue => 34 | FgMagenta => 35 | FgCyan => 36
  end%Z.

Definition Color : Set := list Attribute.

(** [color.New(attrs...)]. *)
Definition New (attrs : list Attribute) : Color := attrs.

Definition escape : string := String "027"%char "".

(** The opening sequence, [ESC "[" p1;p2;... "m"]. *)
Definition format (c : Color) : string :=
  escape ++ "[" ++ String.concat ";" (map (fun a => itoa (code a)) c) ++ "m".

(** The closing sequence, [ESC "[0m"].  (Releases of the library from
    1.16 on close a bold colour with its own reset parameter; a plain
    foreground colour, the only kind the file rendering uses, is closed
    this way by every release.) *)
Definition unformat (c : Color) : string := escape ++ "[0m".

(** [c.SprintFunc()(s)], given the value of the global [NoColor]. *)
Definition Sprint (NoColor : bool) (c : Color) (s : string) : string :=
  if NoColor then s else format c ++ s ++ unformat c.

End color.

(** ** Session records *)
Module sql.

(** [database/sql.NullString]: scanning a NULL column leaves [String]
    empty and [Valid] false. *)
Record NullString : Set := { String : string; Valid : bool }.

End sql.

(** [type Process struct] (main.go:27-36). *)
Record Process : Set := {
  ID : Z;
  User : string;
  Host : string;
  DB : sql.NullString;
  Command : string;
  Time : Z;
  State : sql.NullString;
  Info : sql.NullString
}.

(** ** Classification and rendering *)

(** The statement kinds told apart by the cases of the colour switch of
    [formatProcessOutput] that inspect [p.Info] (main.go:87-105). *)
Inductive Category : Set :=
| CatSelect | CatInsert | CatUpdate | CatDelete | CatDDL | CatUnknown.

(** [strings.Contains(strings.ToLower(info), kw)], the test every one of
    those cases performs. *)
Definition mentions (info kw : string) : bool :=
  strings.Contains (strings.ToLower info) kw.

(** The cases in the order of the source: the first that matches is
    taken. *)
Definition classify (info : string) : Category :=
  if mentions info "select" then CatSelect
  else if mentions info "insert" then CatInsert
  else if mentions info "update" then CatUpdate
  else if mentions info "delete" then CatDelete
  else if mentions info "create" || mentions info "alter" || mentions info "drop"
  then CatDDL
  else CatUnknown.

(** The [switch] of main.go:82-106, entered when [useColor] holds:
    the pair [(stateColor, infoColor)] it leaves behind.  Both start from
    the defaults of main.go:79-80. *)
Definition colorSwitch (p : Process) : color.Color * color.Color :=
  let stateColor := color.New [color.FgYellow] in
  let infoColor := color.New [color.FgCyan] in
  let info := sql.String (Info p) in
  if (sql.String (State p) =? "login")%string then
    (color.New [color.FgRed], infoColor)
  else if (sql.String (State p) =? "Receiving from client")%string then
    (color.New [color.FgBlue], infoColor)
  else
    match classify info with
    | CatSelect =>
        (color.New [color.FgGreen],
         if mentions info "count(*)" then color.New [color.FgMagenta; color.Bold]
         else if mentions info "limit" then color.New [color.FgGreen; color.Bold]
         else color.New [color.FgCyan; color.Bold])
    | CatInsert => (stateColor, color.New [color.FgGreen; color.Bold])
    | CatUpdate => (stateColor, color.New [color.FgYellow; color.Bold])
    | CatDelete => (stateColor, color.New [color.FgRed; color.Bold])
    | CatDDL => (stateColor, color.New [color.FgMagenta; color.Bold])
    | CatUnknown => (stateColor, infoColor)
    end.

(** [stateColor] and [infoColor] as they stand at main.go:109. *)
Definition colors (p : Process) (useColor : bool) : color.Color * color.Color :=
  if useColor then colorSwitch p
  else (color.New [color.FgYellow], color.New [color.FgCyan]).

Definition stateColor (p : Process) (useColor : bool) : color.Color :=
  fst (colors p useColor).

Definition infoColor (p : Process) (useColor : bool) : color.Color :=
  snd (colors p useColor).

Definition nl : string := String "010"%char "".

(** [formatProcessOutput(p, useColor)] (main.go:76-123).  The two things
    the function reads from outside are arguments here: [sprint] is the
    colour library's [SprintFunc], and [timestamp] is
    [time.Now().Format("2006-01-02 15:04:05")] as read by this call. *)
Definition formatProcessOutput (sprint : color.Color -> string -> string)
    (timestamp : string) (p : Process) (useColor : bool) : string :=
  let header :=
    "*************************** Process Info @ " ++ timestamp ++
    " ***************************" ++ nl in
  let info :=
    "       ID: " ++ itoa (ID p) ++ nl ++
    "     USER: " ++ User p ++ nl ++
    "     HOST: " ++ Host p ++ nl ++
    "       DB: " ++ sql.String (DB p) ++ nl ++
    "  COMMAND: " ++ Command p ++ nl ++
    "     TIME: " ++ itoa (Time p) ++ nl ++
    "    STATE: " ++ sprint (stateColor p useColor) (sql.String (State p)) ++ nl ++
    "     INFO: " ++ sprint (infoColor p useColor) (sql.String (Info p)) ++ nl ++ nl in
  header ++ info.

(** [isMonitoringQuery(info)] (main.go:125-129). *)
Definition isMonitoringQuery (info : string) : bool :=
  strings.Contains info "FROM information_schema.processlist" &&
  strings.Contains info "WHERE command != 'Sleep'".

(** ** The filter of the poll loop *)

(** The flags [main] reads that the loop consults. *)
Record Config : Set := {
  fileFlag : string;
  sleepFlag : Z;
  queryFlag : bool;
  debugFlag : bool;
  verboseFlag : bool
}.

(** [isQuery] (main.go:204-210): the statement as stored, not lower-cased. *)
Definition isQuery (info : string) : bool :=
  strings.Contains info "select" ||
  strings.Contains info "insert" ||
  strings.Contains info "update" ||
  strings.Contains info "delete" ||
  strings.Contains info "create" ||
  strings.Contains info "alter" ||
  strings.Contains info "drop".

(** The guard of the first [continue] (main.go:213). *)
Definition skipMonitoring (cfg : Config) (p : Process) : bool :=
  negb (debugFlag cfg) && isMonitoringQuery (sql.String (Info p)).

(** The guard of the second [continue] (main.go:218). *)
Definition skipNonQuery (cfg : Config) (p : Process) : bool :=
  queryFlag cfg && negb (isQuery (sql.String (Info p))).

(** A record is kept when neither [continue] is taken. *)
Definition kept (cfg : Config) (p : Process) : bool :=
  negb (skipMonitoring cfg p) && negb (skipNonQuery cfg p).

(** The test that guards [queryCount++] (main.go:234-235). *)
Definition countsAsQuery (cfg : Config) (p : Process) : bool :=
  debugFlag cfg &&
  (strings.Contains (sql.String (Info p)) "select" ||
   strings.Contains (sql.String (Info p)) "count(" ||
   strings.Contains (sql.String (Info p)) "limit").

(** A keyword occurs in a text "in any letter case" when some substring of
    the text lower-cases to it. *)
Definition occursAnyCase (kw text : string) : Prop :=
  exists pre mid post, text = pre ++ mid ++ post /\ strings.ToLower mid = kw.

(** ** The poll loop

    What follows models the body of the [for] loop of [main]
    (main.go:175-266).  Start-up (flags, credentials, connection) is left
    out: the loop starts from a parsed [Config] and a live connection. *)

(** An [error] value, by its message. *)
Definition error : Set := string.

(** Go's [int] on a 64-bit platform: arithmetic wraps around. *)
Definition wrapInt (x : Z) : Z := ((x + 2 ^ 63) mod 2 ^ 64 - 2 ^ 63)%Z.

(** [queryCount++]. *)
Definition incr (queryCount : Z) : Z := wrapInt (queryCount + 1).

(** [5 * time.Second], in nanoseconds. *)
Definition fiveSeconds : Z := 5000000000%Z.

(** The variables that live across iterations (main.go:172-173). *)
Record LoopState : Set := {
  queryCount : Z;
  lastCheck : Z     (* a [time.Time], as nanoseconds on the process clock *)
}.

(** Everything the loop prints on the console, by the statement that
    prints it. *)
Inductive Console : Set :=
| MsgPollError (err : error)                                 (* main.go:196 *)
| MsgVerbose (queryType state : string) (time : Z) (info : string)
                                                             (* main.go:230 *)
| MsgDebugQuery (n : Z) (info state : string) (time : Z)     (* main.go:237 *)
| MsgWriteError (err : error)                                (* main.go:245 *)
| MsgRecord (text : string)                                  (* main.go:250 *)
| MsgStats (n : Z).                                          (* main.go:255 *)


(** The effects of the loop, in the order it performs them.  A call that
    can fail carries the error it returned ([None] for [nil]). *)
Inductive Event : Set :=
| EvOpenFile (filename : string) (err : option error)  (* os.OpenFile, append mode *)
| EvGetProcessList (err : option error)                (* getProcessList(db) *)
| EvWriteString (s : string) (err : option error)      (* writer.WriteString(s) *)
| EvPrint (m : Console)                                (* fmt.Printf / fmt.Print *)
| EvFlush                                              (* writer.Flush() *)
| EvClose                                              (* file.Close() *)
| EvSleep (ns : Z).                                    (* time.Sleep *)

(** The outside world, as the loop meets it.  Each call of an external
    operation is answered by the environment; the answer may depend on how
    many calls of that operation came before. *)
Record Env : Type := {
  (** the [k]-th reading of [time.Now()], in nanoseconds *)
  clock : nat -> Z;
  (** [t.Format("2006-01-02")] *)
  formatDate : Z -> string;
  (** [t.Format("2006-01-02 15:04:05")] *)
  formatStamp : Z -> string;
  (** the [k]-th [os.OpenFile(filename, O_APPEND|O_CREATE|O_WRONLY, 0644)] *)
  openFile : nat -> string -> option error;
  (** the [k]-th [getProcessList(db)]: the sessions, or the query's error *)
  processList : nat -> list Process + error;
  (** the [k]-th [writer.WriteString(s)] of the buffered writer *)
  writeString : nat -> string -> option error;
  (** [c.SprintFunc()] of the colour library *)
  sprint : color.Color -> string -> string
}.

(** How many calls of each operation have been made. *)
Record Calls : Set := {
  nows : nat;
  opens : nat;
  polls : nat;
  writes : nat
}.

(** A computation either runs to its end or panics. *)
Inductive Outcome (A : Type) : Type :=
| Done (a : A)
| Panic (msg : string).

Arguments Done {A} a.
Arguments Panic {A} msg.

Record Run (A : Type) : Type := {
  result : Outcome A;
  calls : Calls;
  events : list Event
}.

Arguments result {A} r.
Arguments calls {A} r.
Arguments events {A} r.

Definition M (A : Type) : Type := Calls -> Run A.

Definition ret {A : Type} (a : A) : M A :=
  fun c => {| result := Done a; calls := c; events := [] |}.

Definition bind {A B : Type} (m : M A) (k : A -> M B) : M B :=
  fun c =>
    let r := m c in
    match result r with
    | Done a =>
        let r' := k a (calls r) in
        {| result := result r'; calls := calls r';
           events := (events r ++ events r')%list |}
    | Panic msg => {| result := Panic msg; calls := calls r; events := events r |}
    end.

Notation "x <- m ;; k" := (bind m (fun x => k))
  (at level 61, m at next level, right associativity).
Notation "m ;;; k" := (bind m (fun _ => k))
  (at level 61, right associativity).

(** [panic(msg)]. *)
Definition panic {A : Type} (msg : string) : M A :=
  fun c => {| result := Panic msg; calls := c; events := [] |}.

Definition emit (e : Event) : M unit :=
  fun c => {| result := Done tt; calls := c; events := [e] |}.

Definition print (m : Console) : M unit := emit (EvPrint m).

Section Loop.

Variable env : Env.
Variable cfg : Config.

(** [time.Now()]. *)
Definition now : M Z :=
  fun c =>
    {| result := Done (clock env (nows c));
       calls := {| nows := S (nows c); opens := opens c;
                   polls := polls c; writes := writes c |};
       events := [] |}.

(** [os.OpenFile(filename, ...)]. *)
Definition osOpenFile (filename : string) : M (option error) :=
  fun c =>
    let err := openFile env (opens c) filename in
    {| result := Done err;
       calls := {| nows := nows c; opens := S (opens c);
                   polls := polls c; writes := writes c |};
       events := [EvOpenFile filename err] |}.

(** [getProcessList(db)] (main.go:270-296), seen from the loop: the rows
    the server returns, in the server's order, or the error. *)
Definition getProcessList : M (list Process + error) :=
  fun c =>
    let r := processList env (polls c) in
    {| result := Done r;
       calls := {| nows := nows c; opens := opens c;
                   polls := S (polls c); writes := writes c |};
       events := [EvGetProcessList match r with inl _ => None | inr e => Some e end] |}.

(** [writer.WriteString(s)]. *)
Definition writerWriteString (s : string) : M (option error) :=
  fun c =>
    let err := writeString env (writes c) s in
    {| result := Done err;
       calls := {| nows := nows c; opens := opens c;
                   polls := polls c; writes := S (writes c) |};
       events := [EvWriteString s err] |}.

(** [queryType] of the verbose message (main.go:223-228). *)
Definition queryType (info : string) : string :=
  if strings.Contains (strings.ToLower info) "select" then "SELECT"
  else if strings.Contains (strings.ToLower info) "show" then "SHOW"
  else "unknown".

(** What one kept record does after the two filters (main.go:222-250);
    the value is [queryCount] afterwards. *)
Definition emitRecord (p : Process) (queryCount : Z) : M Z :=
  let info := sql.String (Info p) in
  (if verboseFlag cfg
   then print (MsgVerbose (queryType info) (sql.String (State p)) (Time p) info)
   else ret tt) ;;;
  queryCount <-
    (if countsAsQuery cfg p
     then print (MsgDebugQuery (incr queryCount) info (sql.String (State p)) (Time p)) ;;;
          ret (incr queryCount)
     else ret queryCount) ;;
  t <- now ;;
  err <- writerWriteString (formatProcessOutput (sprint env) (formatStamp env t) p false) ;;
  match err with
  | Some e => print (MsgWriteError e) ;;; ret queryCount          (* continue *)
  | None =>
      t' <- now ;;
      print (MsgRecord (formatProcessOutput (sprint env) (formatStamp env t') p true)) ;;;
      ret queryCount
  end.

(** One iteration of [for _, p := range processes] (main.go:202-251). *)
Definition processOne (p : Process) (queryCount : Z) : M Z :=
  if skipMonitoring cfg p then ret queryCount                     (* continue *)
  else if skipNonQuery cfg p then ret queryCount                  (* continue *)
  else emitRecord p queryCount.

(** The whole [range] loop. *)
Fixpoint processAll (processes : list Process) (queryCount : Z) : M Z :=
  match processes with
  | [] => ret queryCount
  | p :: rest => queryCount' <- processOne p queryCount ;; processAll rest queryCount'
  end.

(** The statistics report (main.go:254-258).  [time.Since] reads the clock
    only when [debugFlag] is set. *)
Definition reportStats (st : LoopState) : M LoopState :=
  if debugFlag cfg then
    t <- now ;;
    if (t - lastCheck st >? fiveSeconds)%Z then
      print (MsgStats (queryCount st)) ;;;
      t' <- now ;;
      ret {| queryCount := 0; lastCheck := t' |}
    else ret st
  else ret st.

(** The name of the day's output file (main.go:177-183). *)
Definition outputFilename (date : string) : string :=
  if negb (fileFlag cfg =? "")%string then fileFlag cfg ++ "-" ++ date ++ ".txt"
  else "load_test-" ++ date ++ ".txt".

(** The body of the endless loop (main.go:176-265). *)
Definition cycle (st : LoopState) : M LoopState :=
  t <- now ;;
  err <- osOpenFile (outputFilename (formatDate env t)) ;;
  match err with
  | Some e => panic e
  | None =>
      r <- getProcessList ;;
      match r with
      | inr e =>
          print (MsgPollError e) ;;;
          emit EvClose ;;;
          ret st                                                  (* continue *)
      | inl processes =>
          n <- processAll processes (queryCount st) ;;
          st' <- reportStats {| queryCount := n; lastCheck := lastCheck st |} ;;
          emit EvFlush ;;;
          emit EvClose ;;;
          emit (EvSleep (sleepFlag cfg)) ;;;
          ret st'
      end
  end.

(** [n] iterations of [for { ... }]; a panic ends the run. *)
Fixpoint loop (n : nat) (st : LoopState) : M LoopState :=
  match n with
  | O => ret st
  | S n' => st' <- cycle st ;; loop n' st'
  end.

End Loop.

(** No call made yet. *)
Definition noCalls : Calls := {| nows := 0; opens := 0; polls := 0; writes := 0 |}.

(** ** Reading a run *)

(** The strings handed to [writer.WriteString], in order. *)
Definition written (evs : list Event) : list string :=
  flat_map (fun e => match e with EvWriteString s _ => [s] | _ => [] end) evs.

(** The errors [writer.WriteString] returned, in order. *)
Definition writeErrors (evs : list Event) : list error :=
  flat_map (fun e => match e with EvWriteString _ (Some err) => [err] | _ => [] end) evs.

(** The write errors reported on the console, in order. *)
Definition reportedWriteErrors (evs : list Event) : list error :=
  flat_map (fun e => match e with EvPrint (MsgWriteError err) => [err] | _ => [] end) evs.

(** The records shown on the console, in order. *)
Definition shown (evs : list Event) : list string :=
  flat_map (fun e => match e with EvPrint (MsgRecord s) => [s] | _ => [] end) evs.

(** The pauses of a run, in order. *)
Definition sleeps (evs : list Event) : list Z :=
  flat_map (fun e => match e with EvSleep ns => [ns] | _ => [] end) evs.

(** ** Vocabulary of the statements proved below *)

(** [sub] occurs in [s] as it stands (letter case included). *)
Definition occurs (sub s : string) : Prop :=
  exists pre post, s = pre ++ sub ++ post.

(** The keywords in their order of precedence. *)
Definition keywords : list string :=
  ["select"; "insert"; "update"; "delete"; "create"; "alter"; "drop"].


(** The record layout: a label right-aligned in nine columns, a colon and
    a space, the value, a line break. *)
Fixpoint spaces (n : nat) : string :=
  match n with
  | O => ""
  | S n' => String " "%char (spaces n')
  end.

Definition fieldLine (label value : string) : string :=
  spaces (9 - String.length label) ++ label ++ ": " ++ value ++ nl.

Fixpoint stars (n : nat) : string :=
  match n with
  | O => ""
  | S n' => String "*"%char (stars n')
  end.

Definition bannerLine (timestamp : string) : string :=
  stars 27 ++ " Process Info @ " ++ timestamp ++ " " ++ stars 27 ++ nl.

(** The banner and the six fields that come before STATE. *)
Definition fixedPart (timestamp : string) (p : Process) : string :=
  bannerLine timestamp ++
  fieldLine "ID" (itoa (ID p)) ++
  fieldLine "USER" (User p) ++
  fieldLine "HOST" (Host p) ++
  fieldLine "DB" (sql.String (DB p)) ++
  fieldLine "COMMAND" (Command p) ++
  fieldLine "TIME" (itoa (Time p)).

(** The emphasis of a [select] that counts rows, and the one of a
    [select] with [limit]. *)
Definition strongAggregate : color.Color := [color.FgMagenta; color.Bold].
Definition strongBounded : color.Color := [color.FgGreen; color.Bold].

(** The records of a batch that the loop counts in [queryCount]. *)
Definition counted (cfg : Config) (processes : list Process) : list Process :=
  filter (fun p => kept cfg p && countsAsQuery cfg p) processes.

(** The counters once the clock was read, the file opened and the server
    polled: where [processAll] starts in a cycle. *)
Definition afterPoll (c : Calls) : Calls :=
  {| nows := S (nows c); opens := S (opens c);
     polls := S (polls c); writes := writes c |}.

(** What a kept record hands to [writer.WriteString] when its processing
    starts with the counters [c]: the plain rendering, stamped with the
    next clock reading. *)
Definition fileOutput (env : Env) (c : Calls) (p : Process) : string :=
  formatProcessOutput (sprint env) (formatStamp env (clock env (nows c))) p false.

(** What it prints on the console after a successful write: the coloured
    rendering, stamped with the clock reading after that. *)
Definition consoleOutput (env : Env) (c : Calls) (p : Process) : string :=
  formatProcessOutput (sprint env) (formatStamp env (clock env (S (nows c)))) p true.

(** The verbose and debug messages that precede the write of a kept
    record. *)
Definition preamble (cfg : Config) (p : Process) (queryCount : Z) : list Event :=
  ((if verboseFlag cfg
    then [EvPrint (MsgVerbose (queryType (sql.String (Info p)))
                     (sql.String (State p)) (Time p) (sql.String (Info p)))]
    else []) ++
   (if countsAsQuery cfg p
    then [EvPrint (MsgDebugQuery (incr queryCount) (sql.String (Info p))
                     (sql.String (State p)) (Time p))]
    else []))%list.

(** The file a cycle that starts with the counters [c] opens. *)
Definition filenameAt (env : Env) (cfg : Config) (c : Calls) : string :=
  outputFilename cfg (formatDate env (clock env (nows c))).

(** ** Sample sessions and environments *)

Definition session (id : Z) (state info : string) : Process :=
  {| ID := id;
     User := "app";
     Host := "10.0.0.5:51234";
     DB := {| sql.String := "shop"; sql.Valid := true |};
     Command := "Query";
     Time := 3;
     State := {| sql.String := state; sql.Valid := true |};
     Info := {| sql.String := info; sql.Valid := true |} |}.

Definition flags (queriesOnly debug : bool) : Config :=
  {| fileFlag := ""; sleepFlag := 1000000000;
     queryFlag := queriesOnly; debugFlag := debug; verboseFlag := false |}.

(** The text of the spec's end-to-end example: both markers of the
    monitoring query and none of the lower-case keywords. *)
Definition monitoringText : string :=
  "FROM information_schema.processlist WHERE command != 'Sleep'".

(** A world whose clock advances one millisecond per reading, on
    2025-01-01, with the given answers of the file system, the server and
    the buffered writer. *)
Definition world (opening : nat -> string -> option error)
    (polling : nat -> list Process + error)
    (writing : nat -> string -> option error)
    (NoColor : bool) : Env :=
  {| clock := fun k => (1735732800000000000 + Z.of_nat k * 1000000)%Z;
     formatDate := fun _ => "2025-01-01";
     formatStamp := fun _ => "2025-01-01 12:00:00";
     openFile := opening;
     processList := polling;
     writeString := writing;
     sprint := color.Sprint NoColor |}.

Definition opensFine : nat -> string -> option error := fun _ _ => None.
Definition writesFine : nat -> string -> option error := fun _ _ => None.

Definition start : LoopState := {| queryCount := 0; lastCheck := 1735732800000000000 |}.

(** [n] bytes of filler. *)
Fixpoint filler (n : nat) : string :=
  match n with
  | O => ""
  | S n' => String "x"%char (filler n')
  end.

(** A statement of some five thousand bytes, more than the 4096 bytes the
    buffered writer holds. *)
Definition longSelect : string := "select '" ++ filler 5000 ++ "'".

Definition noSpace : error :=
  "write load_test-2025-01-01.txt: no space left on device".

(** A world whose disk is full, with a batch of three.  The first record
    fits the writer's buffer, so its [WriteString] returns [nil]; the
    second overflows the buffer, the flush meets the full disk, and from
    then on every [WriteString] returns the error. *)
Definition diskFull : Env :=
  world opensFine
    (fun _ => inl [session 1 "executing" "select 1";
                   session 2 "executing" longSelect;
                   session 3 "executing" "select 3"])
    (fun k _ => match k with
                | O => None
                | S _ => Some noSpace
                end)
    true.

(** A world in which the day's file cannot be opened. *)
Definition noPermission : Env :=
  world (fun _ _ => Some "open load_test-2025-01-01.txt: permission denied")
    (fun _ => inl [session 1 "executing" "select 1"]) writesFine true.

(** A world whose server refuses the first poll and answers the second
    with no session. *)
Definition serverDown : Env :=
  world opensFine
    (fun k => match k with
              | O => inr "dial tcp 10.0.0.9:3306: connect: connection refused"
              | S _ => inl []
              end)
    writesFine true.

(** A world with one batch: a counting [select] in lower case, one in
    upper case, and a statement that is no query. *)
Definition threeSessions : Env :=
  world opensFine
    (fun _ => inl [session 1 "executing" "select count(*) from orders";
                   session 2 "executing" "SELECT COUNT(*) FROM orders";
                   session 3 "executing" "show tables"])
    writesFine true.

(** A loop state whose last report lies six seconds before the clock of
    the sample worlds. *)
Definition overdue : LoopState :=
  {| queryCount := 4; lastCheck := 1735732794000000000 |}.

(** A world whose standard output is a terminal, so that the colour
    library emits its escape sequences, with one session. *)
Definition terminal : Env :=
  world opensFine (fun _ => inl [session 1 "executing" "SELECT 1"]) writesFine false.

(** ** Start-up: the credentials file and the connection *)

(** [type MySQLConfig struct] (main.go:21-25). *)
Module mycnf.

Record MySQLConfig : Set := { User : string; Password : string; Host : string }.

(** [MySQLConfig{}]. *)
Definition empty : MySQLConfig := {| User := ""; Password := ""; Host := "" |}.

End mycnf.

(** What start-up asks of the operating system and of the database
    driver. *)
Record OS : Type := {
  (** [os.UserHomeDir()] *)
  UserHomeDir : string + error;
  (** [filepath.Join(dir, name)] *)
  filepathJoin : string -> string -> string;
  (** [os.ReadFile(path)] *)
  ReadFile : string -> string + error;
  (** [sql.Open("mysql", dsn)]: [None] for a [nil] error *)
  sqlOpen : string -> option error;
  (** [db.Ping()] *)
  Ping : option error;
  (** the colour library's global [NoColor] *)
  NoColor : bool
}.

(** The body of the loop over the lines (main.go:52-61). *)
Definition parseLine (config : mycnf.MySQLConfig) (line : string) : mycnf.MySQLConfig :=
  let line := strings.TrimSpace line in
  if strings.HasPrefix line "user=" then
    {| mycnf.User := strings.TrimPrefix line "user=";
       mycnf.Password := mycnf.Password config;
       mycnf.Host := mycnf.Host config |}
  else if strings.HasPrefix line "password=" then
    {| mycnf.User := mycnf.User config;
       mycnf.Password := strings.TrimPrefix line "password=";
       mycnf.Host := mycnf.Host config |}
  else if strings.HasPrefix line "host=" then
    {| mycnf.User := mycnf.User config;
       mycnf.Password := mycnf.Password config;
       mycnf.Host := strings.TrimPrefix line "host=" |}
  else config.

(** The loop of main.go:50-62 over the content of the file. *)
Definition parseConfig (content : string) : mycnf.MySQLConfig :=
  fold_left parseLine (strings.Split content "010"%char) mycnf.empty.

(** [readMySQLConfig()] (main.go:38-63). *)
Definition readMySQLConfig (os : OS) : mycnf.MySQLConfig :=
  match UserHomeDir os with
  | inr _ => mycnf.empty
  | inl home =>
      let configPath := filepathJoin os home ".my.cnf" in
      match ReadFile os configPath with
      | inr _ => mycnf.empty
      | inl content => parseConfig content
      end
  end.

(** [checkMark] (main.go:17-19): U+2713 in UTF-8. *)
Definition checkMark : string :=
  String "226"%char (String "156"%char (String "147"%char "")).

(** [testConnection(db, host)] (main.go:65-74): the error it returns, or
    the bytes [green.Printf] puts on standard output. *)
Definition testConnection (os : OS) (host : string) : string + error :=
  match Ping os with
  | Some err => inr err
  | None =>
      inl (color.Sprint (NoColor os) (color.New [color.FgGreen])
             ("Connected successfully to " ++ host ++ " " ++ checkMark ++ nl))
  end.

(** The host [main] settles on (main.go:144-151). *)
Definition connectHost (hostFlag : string) (config : mycnf.MySQLConfig) : string :=
  if (hostFlag =? "")%string then
    if negb (mycnf.Host config =? "")%string then mycnf.Host config
    else "localhost"
  else hostFlag.

(** The data source name [main] builds (main.go:154-158). *)
Definition buildDSN (config : mycnf.MySQLConfig) (host : string) : string :=
  mycnf.User config ++ ":" ++ mycnf.Password config ++ "@tcp(" ++ host ++ ":3306)/".

(** How start-up ends: in a panic, or connected, the banner printed. *)
Inductive Startup : Set :=
| StartPanic (msg : string)
| Started (host dsn banner : string).

(** [main] from the reading of the credentials to the connection test
    (main.go:140-169); [hostFlag] is the parsed [-h]. *)
Definition startup (os : OS) (hostFlag : string) : Startup :=
  let config := readMySQLConfig os in
  let host := connectHost hostFlag config in
  let dsn := buildDSN config host in
  match sqlOpen os dsn with
  | Some err => StartPanic err
  | None =>
      match testConnection os host with
      | inr err => StartPanic ("Failed to connect to " ++ host ++ ": " ++ err)
      | inl banner => Started host dsn banner
      end
  end.

(** [main] after [flag.Parse()], for [n] iterations of its loop: what
    start-up printed, if it got that far, and the run of the loop
    (main.go:140-266). *)
Definition main (os : OS) (env : Env) (hostFlag : string) (cfg : Config) (n : nat)
  : option string * Run LoopState :=
  match startup os hostFlag with
  | StartPanic msg => (None, {| result := Panic msg; calls := noCalls; events := [] |})
  | Started _ _ banner =>
      (Some banner,
       (t <- now env ;; loop env cfg n {| queryCount := 0; lastCheck := t |}) noCalls)
  end.

(** ** The query for the sessions *)

Definition tab : string := String "009"%char "".

(** The statement [getProcessList] sends (main.go:271-278), byte for
    byte. *)
Definition processListQuery : string :=
  "SELECT ID, USER, HOST, DB, COMMAND, TIME, STATE, INFO " ++ nl ++
  tab ++ tab ++ tab ++ " FROM information_schema.processlist " ++ nl ++
  tab ++ tab ++ tab ++ " WHERE command != 'Sleep'" ++ nl ++
  tab ++ tab ++ tab ++ " AND (COMMAND = 'Query' " ++ nl ++
  tab ++ tab ++ tab ++ tab ++ "  OR INFO IS NOT NULL" ++ nl ++
  tab ++ tab ++ tab ++ tab ++ "  OR STATE NOT IN ('', 'init', 'after create', 'CONNECTING')" ++ nl ++
  tab ++ tab ++ tab ++ tab ++ "  OR TIME > 0)" ++ nl ++
  tab ++ tab ++ tab ++ " ORDER BY TIME DESC".

(** What the server answers to [db.Query(query)]: the error, or the rows
    it delivers until [rows.Next()] returns false, each as [rows.Scan]
    reads it, a session or the error of the conversion. *)
Definition Answer : Set := list (Process + error) + error.

(** The loop over the rows (main.go:286-294): [processes] grows by one
    session per row; the first row that does not scan ends the function
    with that error. *)
Fixpoint scanRows (rows : list (Process + error)) (processes : list Process)
  : list Process + error :=
  match rows with
  | [] => inl processes
  | inl p :: rest => scanRows rest (processes ++ [p])%list
  | inr err :: _ => inr err
  end.

(** [getProcessList(db)] (main.go:270-296), the database being the
    function from the statement to the answer. *)
Definition getProcessListFrom (db : string -> Answer) : list Process + error :=
  match db processListQuery with
  | inr err => inr err
  | inl rows => scanRows rows []
  end.

(** ** The file across a run *)

(** The output file as the loop leaves it after each effect: closed, open
    with nothing buffered, or open with text in the writer's buffer. *)
Inductive FileState : Set := FileClosed | FileClean | FileDirty.

(** The effects that make sense in each state.  The console is free at
    all times; the loop pauses only between files; the server is polled
    and the writer used only on an open file; a file with buffered text
    is flushed before it is closed. *)
Definition fileStep (s : FileState) (e : Event) : option FileState :=
  match e, s with
  | EvPrint _, _ => Some s
  | EvOpenFile _ None, FileClosed => Some FileClean
  | EvOpenFile _ (Some _), FileClosed => Some FileClosed
  | EvSleep _, FileClosed => Some FileClosed
  | EvGetProcessList _, FileClean => Some FileClean
  | EvWriteString _ _, (FileClean | FileDirty) => Some FileDirty
  | EvFlush, (FileClean | FileDirty) => Some FileClean
  | EvClose, FileClean => Some FileClosed
  | _, _ => None
  end.

Fixpoint fileRun (s : FileState) (evs : list Event) : option FileState :=
  match evs with
  | [] => Some s
  | e :: rest =>
      match fileStep s e with
      | Some s' => fileRun s' rest
      | None => None
      end
  end.

Definition fileIsOpen (s : FileState) : bool :=
  match s with
  | FileClosed => false
  | FileClean | FileDirty => true
  end.


(** All bytes of a text are ASCII. *)
Fixpoint asciiText (s : string) : bool :=
  match s with
  | EmptyString => true
  | String c s' => (N_of_ascii c <? 128)%N && asciiText s'
  end.

(** A text with each line feed preceded by a carriage return. *)
Fixpoint toCRLF (s : string) : string :=
  match s with
  | EmptyString => EmptyString
  | String c s' =>
      if Ascii.eqb c "010"%char
      then String "013"%char (String c (toCRLF s'))
      else String c (toCRLF s')
  end.

(** The value a list of lines gives a key: that of the last line which,
    trimmed, starts with the key; [default] when there is none. *)
Definition lastValueOr (key : string) (lines : list string) (default : string) : string :=
  last (map (fun line => strings.TrimPrefix line key)
          (filter (fun line => strings.HasPrefix line key)
             (map strings.TrimSpace lines)))
       default.

(** The same, a key that no line sets being left empty. *)
Definition lastValue (key : string) (lines : list string) : string :=
  lastValueOr key lines "".

(** A line that sets none of the three keys. *)
Definition setsNothing (line : string) : bool :=
  negb (strings.HasPrefix (strings.TrimSpace line) "user=") &&
  negb (strings.HasPrefix (strings.TrimSpace line) "password=") &&
  negb (strings.HasPrefix (strings.TrimSpace line) "host=").

(** A credentials file in the usual layout, and a system that has it. *)
Definition sampleCnf : string :=
  "[client]" ++ nl ++
  "user=monitor" ++ nl ++
  "  password=s3cr=t  " ++ nl ++
  "# host=old.example.com" ++ nl ++
  "host=db1.example.com" ++ nl ++
  "user = ignored" ++ nl ++
  "host=db2.example.com" ++ nl.

Definition laptop : OS :=
  {| UserHomeDir := inl "/home/dba";
     filepathJoin := fun dir name => dir ++ "/" ++ name;
     ReadFile := fun path =>
       if (path =? "/home/dba/.my.cnf")%string then inl sampleCnf
       else inr ("open " ++ path ++ ": no such file or directory");
     sqlOpen := fun _ => None;
     Ping := None;
     NoColor := true |}.

(** A system without home directory. *)
Definition homeless : OS :=
  {| UserHomeDir := inr "$HOME is not defined";
     filepathJoin := fun dir name => dir ++ "/" ++ name;
     ReadFile := fun path => inr ("open " ++ path ++ ": no such file or directory");
     sqlOpen := fun _ => None;
     Ping := Some "dial tcp 127.0.0.1:3306: connect: connection refused";
     NoColor := true |}.

(** A server whose second row holds a NULL user, which [rows.Scan] cannot
    store in a [string]. *)
Definition nullUser : error :=
  "sql: Scan error on column index 1, name USER: converting NULL to string is unsupported".

Definition threeRows : string -> Answer :=
  fun _ => inl [inl (session 1 "executing" "select 1");
                inr nullUser;
                inl (session 3 "executing" "select 3")].

(** The credentials file cannot be read: no home directory, or no file
    under it. *)
Definition noCredentials (os : OS) : bool :=
  match UserHomeDir os with
  | inr _ => true
  | inl home =>
      match ReadFile os (filepathJoin os home ".my.cnf") with
      | inr _ => true
      | inl _ => false
      end
  end.

(** The same flags without [-v]. *)
Definition quiet (cfg : Config) : Config :=
  {| fileFlag := fileFlag cfg; sleepFlag := sleepFlag cfg;
     queryFlag := queryFlag cfg; debugFlag := debugFlag cfg;
     verboseFlag := false |}.

(** A run without the console lines of main.go:230. *)
Definition withoutVerbose (evs : list Event) : list Event :=
  filter (fun e => match e with
                   | EvPrint (MsgVerbose _ _ _ _) => false
                   | _ => true
                   end) evs.

(** ** Letter case, spelled out *)

(** The letters of ASCII, the capital and the small one side by side. *)
Definition letters : list (ascii * ascii) :=
  combine (list_ascii_of_string "ABCDEFGHIJKLMNOPQRSTUVWXYZ")
          (list_ascii_of_string "abcdefghijklmnopqrstuvwxyz").

(** Two bytes are the same letter, letter case apart. *)
Definition sameLetter (c d : ascii) : Prop :=
  c = d \/ In (c, d) letters \/ In (d, c) letters.

(** [a] reads as [b] when letter case is ignored. *)
Fixpoint spells (a b : string) : Prop :=
  match a, b with
  | EmptyString, EmptyString => True
  | String c a', String d b' => sameLetter c d /\ spells a' b'
  | _, _ => False
  end.

(** [kw] stands in [text] in some letter case: a stretch of the text
    reads as [kw] when letter case is ignored.  Nothing here refers to
    [strings.ToLower]. *)
Definition occursCaseBlind (kw text : string) : Prop :=
  exists pre mid post, text = pre ++ mid ++ post /\ spells mid kw.

(** ** More ways to read a run *)

(** Everything printed on the console, in order. *)
Definition printed (evs : list Event) : list Console :=
  flat_map (fun e => match e with EvPrint m => [m] | _ => [] end) evs.

(** A world with one session, whose statement is the given text. *)
Definition oneSession (info : string) : Env :=
  world opensFine (fun _ => inl [session 1 "executing" info]) writesFine true.

(** * Facts about the string functions *)

Lemma append_nil_r (s : string) : s ++ "" = s.
Proof. induction s as [|c s IH]; simpl; congruence. Qed.

Lemma append_assoc (a b c : string) : (a ++ b) ++ c = a ++ (b ++ c).
Proof. induction a as [|x a IH]; simpl; congruence. Qed.

Section StringFacts.

Import strings.

Lemma HasPrefix_append (p t : string) : HasPrefix (p ++ t) p = true.
Proof.
  induction p as [|c p IH]; simpl; [reflexivity|].
  now rewrite Ascii.eqb_refl, IH.
Qed.

Lemma HasPrefix_split (s p : string) :
  HasPrefix s p = true -> exists t, s = p ++ t.
Proof.
  revert s; induction p as [|c p IH]; intros s H.
  - now exists s.
  - destruct s as [|d s]; simpl in H; [discriminate|].
    apply andb_true_iff in H as [Hc Hp].
    apply Ascii.eqb_eq in Hc; subst d.
    destruct (IH _ Hp) as [t ->]. now exists t.
Qed.

Lemma Contains_append (pre sub post : string) :
  Contains (pre ++ sub ++ post) sub = true.
Proof.
  induction pre as [|c pre IH]; simpl.
  - assert (H : HasPrefix (sub ++ post) sub = true) by apply HasPrefix_append.
    destruct (sub ++ post); simpl; now rewrite H.
  - rewrite IH. apply orb_true_r.
Qed.

Lemma Contains_split (s sub : string) :
  Contains s sub = true -> exists pre post, s = pre ++ sub ++ post.
Proof.
  induction s as [|c s IH]; simpl; intros H.
  - rewrite orb_false_r in H. destruct (HasPrefix_split _ _ H) as [t Ht].
    now exists "", t.
  - apply orb_true_iff in H as [H|H].
    + destruct (HasPrefix_split _ _ H) as [t Ht]. now exists "", t.
    + destruct (IH H) as (pre & post & ->). now exists (String c pre), post.
Qed.

(** [strings.Contains] decides the occurrence of a substring. *)
Lemma Contains_iff (s sub : string) :
  Contains s sub = true <-> exists pre post, s = pre ++ sub ++ post.
Proof.
  split; [apply Contains_split|].
  intros (pre & post & ->). apply Contains_append.
Qed.

Lemma ToLower_append (a b : string) :
  ToLower (a ++ b) = ToLower a ++ ToLower b.
Proof. induction a as [|c a IH]; simpl; congruence. Qed.

Lemma ToLower_split (s a b : string) :
  ToLower s = a ++ b ->
  exists s1 s2, s = s1 ++ s2 /\ ToLower s1 = a /\ ToLower s2 = b.
Proof.
  revert s; induction a as [|x a IH]; intros s H.
  - now exists "", s.
  - destruct s as [|c s]; simpl in H; [discriminate|].
    injection H as Hx Hs.
    destruct (IH _ Hs) as (s1 & s2 & -> & H1 & H2).
    exists (String c s1), s2. simpl. now rewrite Hx, H1.
Qed.

(** The test main.go performs, [strings.Contains(strings.ToLower(text),
    kw)], decides [occursAnyCase]. *)
Lemma Contains_ToLower_iff (text kw : string) :
  Contains (ToLower text) kw = true <-> occursAnyCase kw text.
Proof.
  rewrite Contains_iff. split.
  - intros (pre & post & H).
    apply ToLower_split in H as (s1 & s23 & -> & H1 & H23).
    apply ToLower_split in H23 as (s2 & s3 & -> & H2 & H3).
    now exists s1, s2, s3.
  - intros (pre & mid & post & -> & <-).
    exists (ToLower pre), (ToLower post).
    now rewrite !ToLower_append.
Qed.

End StringFacts.

(** * Facts about the poll loop *)

Section LoopFacts.

Variable env : Env.
Variable cfg : Config.

Lemma processOne_dropped (p : Process) (qc : Z) (c : Calls) :
  kept cfg p = false -> processOne env cfg p qc c = ret qc c.
Proof.
  unfold kept, processOne. intros H.
  destruct (skipMonitoring cfg p); [reflexivity|].
  destruct (skipNonQuery cfg p); [reflexivity|discriminate].
Qed.

Lemma processOne_kept (p : Process) (qc : Z) (c : Calls) :
  kept cfg p = true -> processOne env cfg p qc c = emitRecord env cfg p qc c.
Proof.
  unfold kept, processOne. intros H.
  destruct (skipMonitoring cfg p); [discriminate|].
  destruct (skipNonQuery cfg p); [discriminate|reflexivity].
Qed.

(** The run of a kept record, spelled out. *)
Lemma emitRecord_run (p : Process) (qc : Z) (c : Calls) :
  emitRecord env cfg p qc c =
  let err := writeString env (writes c) (fileOutput env c p) in
  {| result := Done (if countsAsQuery cfg p then incr qc else qc);
     calls := {| nows := match err with Some _ => S (nows c) | None => S (S (nows c)) end;
                 opens := opens c; polls := polls c; writes := S (writes c) |};
     events := (preamble cfg p qc ++
                EvWriteString (fileOutput env c p) err ::
                match err with
                | Some e => [EvPrint (MsgWriteError e)]
                | None => [EvPrint (MsgRecord (consoleOutput env c p))]
                end)%list |}.
Proof.
  unfold emitRecord, preamble, fileOutput, consoleOutput.
  destruct (verboseFlag cfg), (countsAsQuery cfg p);
    cbv beta iota zeta delta
      [bind print emit ret now writerWriteString result calls events app];
    cbn [nows opens polls writes];
    destruct (writeString env (writes c) _); reflexivity.
Qed.

Lemma processOne_run (p : Process) (qc : Z) (c : Calls) :
  processOne env cfg p qc c =
  if kept cfg p then emitRecord env cfg p qc c else ret qc c.
Proof.
  destruct (kept cfg p) eqn:E;
    [now apply processOne_kept | now apply processOne_dropped].
Qed.

Lemma processOne_result (p : Process) (qc : Z) (c : Calls) :
  result (processOne env cfg p qc c) =
  Done (if kept cfg p && countsAsQuery cfg p then incr qc else qc).
Proof.
  rewrite processOne_run. destruct (kept cfg p); [|reflexivity].
  now rewrite emitRecord_run.
Qed.

Lemma processAll_cons (p : Process) (rest : list Process) (qc : Z) (c : Calls) :
  let r := processOne env cfg p qc c in
  let qc' := if kept cfg p && countsAsQuery cfg p then incr qc else qc in
  let r' := processAll env cfg rest qc' (calls r) in
  processAll env cfg (p :: rest) qc c =
  {| result := result r'; calls := calls r';
     events := (events r ++ events r')%list |}.
Proof.
  cbn zeta. cbn [processAll]. unfold bind at 1.
  now rewrite processOne_result.
Qed.

(** The [range] loop never panics, and [queryCount++] runs once for each
    kept record that passes the test of main.go:234. *)
Lemma processAll_result (ps : list Process) (qc : Z) (c : Calls) :
  result (processAll env cfg ps qc c) =
  Done (Nat.iter (List.length (counted cfg ps)) incr qc).
Proof.
  revert qc c. induction ps as [|p ps IH]; intros qc c; [reflexivity|].
  rewrite processAll_cons. cbn [result]. rewrite IH.
  unfold counted. cbn [filter].
  destruct (kept cfg p && countsAsQuery cfg p); [|reflexivity].
  cbn [List.length]. now rewrite Nat.iter_succ_r.
Qed.

(** A property of event lists that holds of the empty list and is kept by
    the events of each record holds of the events of the whole batch. *)
Lemma processAll_events_ind (P : list Event -> Prop) :
  P [] ->
  (forall p qc c evs, P evs -> P (events (processOne env cfg p qc c) ++ evs)%list) ->
  forall ps qc c, P (events (processAll env cfg ps qc c)).
Proof.
  intros Hnil Hstep ps. induction ps as [|p ps IH]; intros qc c; [exact Hnil|].
  rewrite processAll_cons. cbn [events]. apply Hstep, IH.
Qed.

Lemma written_app (a b : list Event) :
  written (a ++ b) = (written a ++ written b)%list.
Proof. apply flat_map_app. Qed.

Lemma writeErrors_app (a b : list Event) :
  writeErrors (a ++ b) = (writeErrors a ++ writeErrors b)%list.
Proof. apply flat_map_app. Qed.

Lemma reportedWriteErrors_app (a b : list Event) :
  reportedWriteErrors (a ++ b) = (reportedWriteErrors a ++ reportedWriteErrors b)%list.
Proof. apply flat_map_app. Qed.

Lemma shown_app (a b : list Event) :
  shown (a ++ b) = (shown a ++ shown b)%list.
Proof. apply flat_map_app. Qed.

Lemma sleeps_app (a b : list Event) :
  sleeps (a ++ b) = (sleeps a ++ sleeps b)%list.
Proof. apply flat_map_app. Qed.

Lemma preamble_quiet (p : Process) (qc : Z) :
  written (preamble cfg p qc) = [] /\
  writeErrors (preamble cfg p qc) = [] /\
  reportedWriteErrors (preamble cfg p qc) = [] /\
  shown (preamble cfg p qc) = [] /\
  sleeps (preamble cfg p qc) = [].
Proof.
  unfold preamble.
  destruct (verboseFlag cfg), (countsAsQuery cfg p); repeat split; reflexivity.
Qed.

(** The events of one record, read through each of the projections. *)
Lemma processOne_events (p : Process) (qc : Z) (c : Calls) :
  let evs := events (processOne env cfg p qc c) in
  let err := writeString env (writes c) (fileOutput env c p) in
  written evs = (if kept cfg p then [fileOutput env c p] else []) /\
  writeErrors evs =
    (if kept cfg p then match err with Some e => [e] | None => [] end else []) /\
  reportedWriteErrors evs = writeErrors evs /\
  shown evs =
    (if kept cfg p
     then match err with Some _ => [] | None => [consoleOutput env c p] end
     else []) /\
  sleeps evs = [].
Proof.
  cbn zeta. rewrite processOne_run.
  destruct (kept cfg p); [|repeat split; reflexivity].
  rewrite emitRecord_run. cbn [events].
  destruct (preamble_quiet p qc) as (Hw & He & Hr & Hs & Hz).
  rewrite written_app, writeErrors_app, reportedWriteErrors_app, shown_app,
    sleeps_app, Hw, He, Hr, Hs, Hz.
  destruct (writeString env (writes c) (fileOutput env c p));
    repeat split; reflexivity.
Qed.

(** Every kept record is handed to the writer, whatever the earlier writes
    returned. *)
Lemma processAll_written (ps : list Process) (qc : Z) (c : Calls) :
  List.length (written (events (processAll env cfg ps qc c))) =
  List.length (filter (kept cfg) ps).
Proof.
  revert qc c. induction ps as [|p ps IH]; intros qc c; [reflexivity|].
  rewrite processAll_cons. cbn [events].
  rewrite written_app, List.length_app, IH.
  destruct (processOne_events p qc c) as (Hw & _). rewrite Hw.
  cbn [filter]. destruct (kept cfg p); reflexivity.
Qed.

(** Every error of the writer is reported on the console, in order. *)
Lemma processAll_reported (ps : list Process) (qc : Z) (c : Calls) :
  reportedWriteErrors (events (processAll env cfg ps qc c)) =
  writeErrors (events (processAll env cfg ps qc c)).
Proof.
  apply processAll_events_ind with
    (P := fun evs => reportedWriteErrors evs = writeErrors evs); [reflexivity|].
  intros p qc' c' evs H.
  rewrite reportedWriteErrors_app, writeErrors_app, H.
  destruct (processOne_events p qc' c') as (_ & _ & Hr & _). now rewrite Hr.
Qed.

(** A record is shown on the console exactly when its write succeeded. *)
Lemma processAll_shown (ps : list Process) (qc : Z) (c : Calls) :
  (List.length (shown (events (processAll env cfg ps qc c))) +
   List.length (writeErrors (events (processAll env cfg ps qc c))))%nat =
  List.length (written (events (processAll env cfg ps qc c))).
Proof.
  apply processAll_events_ind with
    (P := fun evs => (List.length (shown evs) + List.length (writeErrors evs))%nat =
                     List.length (written evs)); [reflexivity|].
  intros p qc' c' evs H.
  rewrite shown_app, writeErrors_app, written_app, !List.length_app.
  destruct (processOne_events p qc' c') as (Hw & He & _ & Hs & _).
  rewrite Hw, He, Hs.
  destruct (kept cfg p); [|cbn; lia].
  destruct (writeString env (writes c') (fileOutput env c' p)); cbn; lia.
Qed.

Lemma processAll_sleeps (ps : list Process) (qc : Z) (c : Calls) :
  sleeps (events (processAll env cfg ps qc c)) = [].
Proof.
  apply processAll_events_ind with (P := fun evs => sleeps evs = []);
    [reflexivity|].
  intros p qc' c' evs H. rewrite sleeps_app, H.
  destruct (processOne_events p qc' c') as (_ & _ & _ & _ & Hz). now rewrite Hz.
Qed.

(** The statistics report, spelled out. *)
Lemma reportStats_run (st : LoopState) (c : Calls) :
  reportStats env cfg st c =
  if debugFlag cfg then
    if (clock env (nows c) - lastCheck st >? fiveSeconds)%Z then
      {| result := Done {| queryCount := 0; lastCheck := clock env (S (nows c)) |};
         calls := {| nows := S (S (nows c)); opens := opens c;
                     polls := polls c; writes := writes c |};
         events := [EvPrint (MsgStats (queryCount st))] |}
    else
      {| result := Done st;
         calls := {| nows := S (nows c); opens := opens c;
                     polls := polls c; writes := writes c |};
         events := [] |}
  else ret st c.
Proof.
  unfold reportStats. destruct (debugFlag cfg); [|reflexivity].
  unfold bind, now; cbn.
  destruct (clock env (nows c) - lastCheck st >? fiveSeconds)%Z; reflexivity.
Qed.

Lemma reportStats_done (st : LoopState) (c : Calls) :
  exists st', result (reportStats env cfg st c) = Done st'.
Proof.
  rewrite reportStats_run.
  destruct (debugFlag cfg); [|now exists st].
  destruct (_ >? _)%Z; eexists; reflexivity.
Qed.

(** A cycle whose [os.OpenFile] fails panics at once. *)
Lemma cycle_open_error (st : LoopState) (c : Calls) (e : error) :
  openFile env (opens c) (filenameAt env cfg c) = Some e ->
  cycle env cfg st c =
  {| result := Panic e;
     calls := {| nows := S (nows c); opens := S (opens c);
                 polls := polls c; writes := writes c |};
     events := [EvOpenFile (filenameAt env cfg c) (Some e)] |}.
Proof.
  unfold filenameAt. intros H.
  unfold cycle, bind, now, osOpenFile, panic; cbn. rewrite H. reflexivity.
Qed.

(** A cycle whose poll fails reports the error, closes the file and ends. *)
Lemma cycle_poll_error (st : LoopState) (c : Calls) (e : error) :
  openFile env (opens c) (filenameAt env cfg c) = None ->
  processList env (polls c) = inr e ->
  cycle env cfg st c =
  {| result := Done st;
     calls := afterPoll c;
     events := [EvOpenFile (filenameAt env cfg c) None;
                EvGetProcessList (Some e);
                EvPrint (MsgPollError e);
                EvClose] |}.
Proof.
  unfold filenameAt. intros Ho Hp.
  unfold cycle, bind, now, osOpenFile, getProcessList, print, emit, ret; cbn.
  rewrite Ho; cbn. rewrite Hp; cbn. reflexivity.
Qed.

(** A cycle whose poll succeeds runs the batch, the report, and the
    tail of the loop body. *)
Lemma cycle_polled (st : LoopState) (c : Calls) (ps : list Process) :
  openFile env (opens c) (filenameAt env cfg c) = None ->
  processList env (polls c) = inl ps ->
  let batch := processAll env cfg ps (queryCount st) (afterPoll c) in
  let report :=
    reportStats env cfg
      {| queryCount := Nat.iter (List.length (counted cfg ps)) incr (queryCount st);
         lastCheck := lastCheck st |}
      (calls batch) in
  cycle env cfg st c =
  {| result := result report;
     calls := calls report;
     events := (EvOpenFile (filenameAt env cfg c) None ::
                EvGetProcessList None ::
                events batch ++ events report ++
                [EvFlush; EvClose; EvSleep (sleepFlag cfg)])%list |}.
Proof.
  unfold filenameAt. intros Ho Hp. cbn zeta.
  unfold cycle, bind, now, osOpenFile, getProcessList, emit, ret.
  cbn -[processAll reportStats].
  rewrite Ho. cbn -[processAll reportStats].
  rewrite Hp. cbn -[processAll reportStats].
  change {| nows := S (nows c); opens := S (opens c);
            polls := S (polls c); writes := writes c |} with (afterPoll c).
  rewrite processAll_result.
  destruct (reportStats_done
              {| queryCount := Nat.iter (List.length (counted cfg ps)) incr (queryCount st);
                 lastCheck := lastCheck st |}
              (calls (processAll env cfg ps (queryCount st) (afterPoll c))))
    as [st' Hst'].
  rewrite Hst'. cbn -[processAll reportStats]. reflexivity.
Qed.

End LoopFacts.

(** * The classifier *)

Lemma mentions_iff (text kw : string) :
  mentions text kw = true <-> occursAnyCase kw text.
Proof. apply Contains_ToLower_iff. Qed.

Lemma mentions_false (text kw : string) :
  ~ occursAnyCase kw text -> mentions text kw = false.
Proof.
  intros H. destruct (mentions text kw) eqn:E; [|reflexivity].
  now apply mentions_iff in E.
Qed.


(** ** Letter case *)

(** Lower-casing a byte gives the same letter. *)
Lemma lowerByte_sameLetter (c : ascii) : sameLetter c (strings.lowerByte c).
Proof.
  destruct c as [b0 b1 b2 b3 b4 b5 b6 b7].
  destruct b0, b1, b2, b3, b4, b5, b6, b7;
    first [ left; reflexivity
          | right; left; unfold letters; cbn;
            repeat (first [left; reflexivity | right]) ].
Qed.

(** The only byte that lower-cases to a byte which is no capital is the
    byte itself or its capital. *)
Lemma sameLetter_lowerByte (c d : ascii) :
  strings.lowerByte d = d -> sameLetter c d -> strings.lowerByte c = d.
Proof.
  intros Hd [-> | [H | H]]; [exact Hd| |]; unfold letters in H; cbn in H.
  - repeat (destruct H as [H|H]; [injection H as <- <-; reflexivity|]).
    destruct H.
  - repeat (destruct H as [H|H];
            [injection H as <- <-; cbv in Hd; discriminate Hd|]).
    destruct H.
Qed.

(** A text lower-cases to a word without capitals exactly when it reads
    as that word, letter case ignored. *)
Lemma ToLower_spells (mid kw : string) :
  strings.ToLower kw = kw ->
  strings.ToLower mid = kw <-> spells mid kw.
Proof.
  revert kw. induction mid as [|c mid IH]; intros [|d kw] Hkw; cbn;
    try (split; [discriminate|contradiction]); [tauto|].
  cbn in Hkw. injection Hkw as Hd Hkw. split.
  - intros H. injection H as <- H. split.
    + apply lowerByte_sameLetter.
    + now apply IH.
  - intros [Hc H]. f_equal.
    + now apply sameLetter_lowerByte.
    + now apply IH.
Qed.

(** The classifier's test, read without [strings.ToLower]. *)
Lemma mentions_caseBlind (text kw : string) :
  strings.ToLower kw = kw ->
  mentions text kw = true <-> occursCaseBlind kw text.
Proof.
  intros Hkw. rewrite mentions_iff. unfold occursAnyCase, occursCaseBlind.
  split; intros (pre & mid & post & E & H); exists pre, mid, post;
    (split; [exact E|]); now apply (ToLower_spells mid kw Hkw).
Qed.

Lemma keyword_lower (kw : string) :
  In kw keywords -> strings.ToLower kw = kw.
Proof.
  intros H. cbn in H.
  repeat (destruct H as [<-|H]; [reflexivity|]). destruct H.
Qed.

Lemma mentions_keyword (text kw : string) :
  In kw keywords ->
  mentions text kw = true <-> occursCaseBlind kw text.
Proof. intros H. apply mentions_caseBlind, keyword_lower, H. Qed.






(** * The renderer *)

Lemma length_append (a b : string) :
  String.length (a ++ b) = (String.length a + String.length b)%nat.
Proof. induction a as [|c a IH]; simpl; congruence. Qed.

(** The source's format string lays the record out as a banner and eight
    labelled fields. *)
Lemma formatProcessOutput_layout (sprint : color.Color -> string -> string)
    (timestamp : string) (p : Process) (useColor : bool) :
  formatProcessOutput sprint timestamp p useColor =
  fixedPart timestamp p ++
  fieldLine "STATE" (sprint (stateColor p useColor) (sql.String (State p))) ++
  fieldLine "INFO" (sprint (infoColor p useColor) (sql.String (Info p))) ++
  nl.
Proof.
  unfold formatProcessOutput, fixedPart, bannerLine, fieldLine.
  cbn [spaces stars String.length Nat.sub].
  rewrite !append_assoc. reflexivity.
Qed.

(** C10.  For every session record and render timestamp, the colourised
    and the plain rendering start with the same bytes, the banner line and
    the ID, USER, HOST, DB, COMMAND and TIME fields, and differ at most in
    the values of the STATE and INFO fields that follow. *)
Theorem colorize_changes_only_state_and_info
    (sprint : color.Color -> string -> string) (timestamp : string) (p : Process) :
  exists stateOn infoOn stateOff infoOff,
    formatProcessOutput sprint timestamp p true =
      fixedPart timestamp p ++
      fieldLine "STATE" stateOn ++ fieldLine "INFO" infoOn ++ nl
    /\
    formatProcessOutput sprint timestamp p false =
      fixedPart timestamp p ++
      fieldLine "STATE" stateOff ++ fieldLine "INFO" infoOff ++ nl.
Proof.
  exists (sprint (stateColor p true) (sql.String (State p))),
         (sprint (infoColor p true) (sql.String (Info p))),
         (sprint (stateColor p false) (sql.String (State p))),
         (sprint (infoColor p false) (sql.String (Info p))).
  split; apply formatProcessOutput_layout.
Qed.

(** C5.  What the loop hands to the file writer is
    [formatProcessOutput(p, false)], and that function still passes STATE
    through the yellow and INFO through the cyan [SprintFunc]: with colour
    output enabled in the library ([NoColor] false) the file rendering of
    every record carries the escape sequences, and it is eighteen bytes
    longer than the rendering of the same record with colour output
    disabled. *)
Theorem file_rendering_carries_color_codes (timestamp : string) (p : Process) :
  formatProcessOutput (color.Sprint false) timestamp p false =
    fixedPart timestamp p ++
    fieldLine "STATE"
      (color.escape ++ "[33m" ++ sql.String (State p) ++ color.escape ++ "[0m") ++
    fieldLine "INFO"
      (color.escape ++ "[36m" ++ sql.String (Info p) ++ color.escape ++ "[0m") ++
    nl
  /\ strings.Contains (formatProcessOutput (color.Sprint false) timestamp p false)
       (color.escape ++ "[33m") = true
  /\ strings.Contains (formatProcessOutput (color.Sprint false) timestamp p false)
       (color.escape ++ "[36m") = true
  /\ String.length (formatProcessOutput (color.Sprint false) timestamp p false) =
     (String.length (formatProcessOutput (color.Sprint true) timestamp p false) + 18)%nat
  /\ written (events (cycle terminal (flags false false) start noCalls)) =
     [fixedPart "2025-01-01 12:00:00" (session 1 "executing" "SELECT 1") ++
      fieldLine "STATE" (color.escape ++ "[33mexecuting" ++ color.escape ++ "[0m") ++
      fieldLine "INFO" (color.escape ++ "[36mSELECT 1" ++ color.escape ++ "[0m") ++
      nl].
Proof.
  assert (E : formatProcessOutput (color.Sprint false) timestamp p false =
    fixedPart timestamp p ++
    fieldLine "STATE"
      (color.escape ++ "[33m" ++ sql.String (State p) ++ color.escape ++ "[0m") ++
    fieldLine "INFO"
      (color.escape ++ "[36m" ++ sql.String (Info p) ++ color.escape ++ "[0m") ++
    nl).
  { rewrite formatProcessOutput_layout.
    unfold stateColor, infoColor, colors, color.Sprint, color.format,
      color.unformat, color.New; cbn [fst snd map String.concat color.code].
    change (itoa 33) with "33". change (itoa 36) with "36".
    rewrite !append_assoc. reflexivity. }
  split; [exact E|]. rewrite E. split; [|split; [|split; [|reflexivity]]].
  - apply Contains_iff.
    exists (fixedPart timestamp p ++ "    STATE: "),
      (sql.String (State p) ++ color.escape ++ "[0m" ++ nl ++
       fieldLine "INFO"
         (color.escape ++ "[36m" ++ sql.String (Info p) ++ color.escape ++ "[0m") ++
       nl).
    unfold fieldLine. cbn [spaces String.length Nat.sub].
    rewrite !append_assoc. reflexivity.
  - apply Contains_iff.
    exists (fixedPart timestamp p ++
            fieldLine "STATE"
              (color.escape ++ "[33m" ++ sql.String (State p) ++ color.escape ++ "[0m") ++
            "     INFO: "),
      (sql.String (Info p) ++ color.escape ++ "[0m" ++ nl ++ nl).
    unfold fieldLine. cbn [spaces String.length Nat.sub].
    rewrite !append_assoc. reflexivity.
  - rewrite formatProcessOutput_layout.
    unfold stateColor, infoColor, colors, color.Sprint, fieldLine.
    cbn [fst snd spaces String.length Nat.sub].
    rewrite !length_append. cbn [String.length color.escape]. lia.
Qed.

(** The statement colour is never the one of a bounded [select] unless
    the text lacks the row count. *)
Lemma infoColor_of_count (p : Process) (useColor : bool) :
  mentions (sql.String (Info p)) "select" = true ->
  mentions (sql.String (Info p)) "count(*)" = true ->
  infoColor p useColor = strongAggregate \/ infoColor p useColor = [color.FgCyan].
Proof.
  intros Hs Hc. unfold infoColor, colors, colorSwitch, classify.
  rewrite Hs, Hc.
  destruct useColor; [|now right].
  destruct (sql.String (State p) =? "login")%string; [now right|].
  destruct (sql.String (State p) =? "Receiving from client")%string; [now right|].
  now left.
Qed.

(** C8, as the code has it.  For every record whose statement contains
    both [select] and the row count, in any letter case, the statement
    emphasis is never the strong-bounded one, also when the text contains
    [limit]; and it is the strong-aggregate one whenever colourising is on
    and the state is neither "login" nor "Receiving from client", the two
    cases the switch tries before it looks at the statement. *)
Theorem count_emphasis_before_limit (p : Process) (useColor : bool) :
  occursAnyCase "select" (sql.String (Info p)) ->
  occursAnyCase "count(*)" (sql.String (Info p)) ->
  infoColor p useColor <> strongBounded /\
  (useColor = true ->
   sql.String (State p) <> "login" ->
   sql.String (State p) <> "Receiving from client" ->
   infoColor p useColor = strongAggregate /\
   stateColor p useColor = [color.FgGreen]).
Proof.
  intros Hs Hc. apply mentions_iff in Hs, Hc. split.
  - destruct (infoColor_of_count p useColor Hs Hc) as [-> | ->]; discriminate.
  - intros -> Hl Hr.
    apply String.eqb_neq in Hl, Hr.
    unfold infoColor, stateColor, colors, colorSwitch, classify.
    rewrite Hl, Hr, Hs, Hc. split; reflexivity.
Qed.

(** The theorem at a counting [select] with a [limit], shown by a session
    that is executing. *)
Lemma count_emphasis_before_limit_witness :
  infoColor (session 1 "executing" "SELECT COUNT(*) FROM orders LIMIT 10") true
    <> strongBounded /\
  infoColor (session 1 "executing" "SELECT COUNT(*) FROM orders LIMIT 10") true
    = strongAggregate.
Proof.
  pose proof (count_emphasis_before_limit
                (session 1 "executing" "SELECT COUNT(*) FROM orders LIMIT 10") true) as H.
  destruct H as [Hnb Hagg].
  - apply mentions_iff. reflexivity.
  - apply mentions_iff. reflexivity.
  - split; [exact Hnb|].
    apply Hagg; [reflexivity | discriminate | discriminate].
Defined.

(** C8 as stated fails: for a statement that counts rows, a session in
    state "login" or "Receiving from client" keeps the default statement
    colour, because the switch stops at the state; and so does every
    session in the rendering made for the file, where [useColor] is false
    and the switch is not entered. *)
Lemma state_cases_come_before_count :
  mentions "SELECT COUNT(*) FROM users" "select" = true /\
  mentions "SELECT COUNT(*) FROM users" "count(*)" = true /\
  infoColor (session 7 "login" "SELECT COUNT(*) FROM users") true = [color.FgCyan] /\
  infoColor (session 8 "Receiving from client" "SELECT COUNT(*) FROM users") true
    = [color.FgCyan] /\
  infoColor (session 9 "executing" "SELECT COUNT(*) FROM users") false = [color.FgCyan] /\
  strongAggregate = [color.FgMagenta; color.Bold].
Proof. repeat split; reflexivity. Qed.

(** * The filter *)

Lemma Contains_occurs (s sub : string) :
  strings.Contains s sub = true <-> occurs sub s.
Proof. apply Contains_iff. Qed.

Lemma isMonitoringQuery_iff (info : string) :
  isMonitoringQuery info = true <->
  occurs "FROM information_schema.processlist" info /\
  occurs "WHERE command != 'Sleep'" info.
Proof.
  unfold isMonitoringQuery. rewrite andb_true_iff, !Contains_occurs. tauto.
Qed.

(** The query test looks for the keywords as they are, in lower case. *)
Lemma isQuery_iff (info : string) :
  isQuery info = true <-> exists kw, In kw keywords /\ occurs kw info.
Proof.
  unfold isQuery. rewrite !orb_true_iff, !Contains_occurs. split.
  - intros H. unfold keywords.
    repeat (destruct H as [H|H]); eexists; (split; [|exact H]); cbn; tauto.
  - intros (kw & Hin & H). cbn in Hin.
    repeat (destruct Hin as [<-|Hin]); tauto.
Qed.

(** C2, on the source.  With [-q] set the loop drops "SHOW TABLES" and
    keeps "select 1", but it also drops "SELECT 1": [isQuery] looks for the
    keywords in the statement as stored, where every other keyword test of
    the program lower-cases it first. *)
Theorem queries_only_misses_upper_case :
  kept (flags true false) (session 1 "executing" "SHOW TABLES") = false /\
  kept (flags true false) (session 2 "executing" "select 1") = true /\
  kept (flags true false) (session 3 "executing" "SELECT 1") = false /\
  isQuery "SELECT 1" = false /\
  classify "SELECT 1" = CatSelect /\
  queryType "SELECT 1" = "SELECT" /\
  events (processOne (world opensFine (fun _ => inl []) writesFine true)
            (flags true false) (session 3 "executing" "SELECT 1") 0 noCalls) = [].
Proof. repeat split; reflexivity. Qed.

(** A text reads as itself. *)
Lemma spells_refl (s : string) : spells s s.
Proof. induction s as [|c s IH]; cbn; [exact I|]. split; [now left|exact IH]. Qed.

Lemma occurs_caseBlind (kw text : string) :
  occurs kw text -> occursCaseBlind kw text.
Proof.
  intros (pre & post & ->). exists pre, kw, post.
  split; [reflexivity|apply spells_refl].
Qed.

(** C6, as the code has it.  A record whose statement contains both
    markers of the monitoring query is dropped when [-d] is off, whatever
    its other fields and whatever [-q] says.  When [-d] is on the
    self-exclusion does not apply and the queries-only rule of main.go:218
    alone decides: without [-q] the record is kept and written to the
    file; with [-q], a record whose statement holds none of the keywords,
    in whatever letter case, is dropped all the same. *)
Theorem self_exclusion_unless_debug (env : Env) (cfg : Config) (p : Process)
    (qc : Z) (c : Calls) :
  occurs "FROM information_schema.processlist" (sql.String (Info p)) ->
  occurs "WHERE command != 'Sleep'" (sql.String (Info p)) ->
  (debugFlag cfg = false ->
   kept cfg p = false /\ events (processOne env cfg p qc c) = []) /\
  (debugFlag cfg = true ->
   kept cfg p = negb (skipNonQuery cfg p) /\
   (queryFlag cfg = false ->
    kept cfg p = true /\
    written (events (processOne env cfg p qc c)) = [fileOutput env c p]) /\
   (queryFlag cfg = true ->
    (forall kw, In kw keywords -> ~ occursCaseBlind kw (sql.String (Info p))) ->
    kept cfg p = false /\ events (processOne env cfg p qc c) = [])).
Proof.
  intros H1 H2.
  assert (Hm : isMonitoringQuery (sql.String (Info p)) = true)
    by now apply isMonitoringQuery_iff.
  split.
  - intros Hd.
    assert (Hk : kept cfg p = false).
    { unfold kept, skipMonitoring. now rewrite Hd, Hm. }
    split; [exact Hk|]. now rewrite processOne_dropped.
  - intros Hd.
    assert (Hk : kept cfg p = negb (skipNonQuery cfg p)).
    { unfold kept, skipMonitoring. now rewrite Hd. }
    split; [exact Hk|]. split.
    + intros Hq.
      assert (Hk' : kept cfg p = true).
      { rewrite Hk. unfold skipNonQuery. now rewrite Hq. }
      split; [exact Hk'|].
      destruct (processOne_events env cfg p qc c) as (Hw & _).
      now rewrite Hw, Hk'.
    + intros Hq Hnone.
      assert (Hk' : kept cfg p = false).
      { rewrite Hk. unfold skipNonQuery. rewrite Hq.
        destruct (isQuery (sql.String (Info p))) eqn:E; [|reflexivity].
        apply isQuery_iff in E as (kw & Hin & Hocc).
        now apply occurs_caseBlind, Hnone in Hocc. }
      split; [exact Hk'|]. now rewrite processOne_dropped.
Qed.

(** The theorem at the text of the spec's example, which holds both
    markers and no keyword: dropped without [-d], written to the file with
    [-d], dropped again with [-d] and [-q]. *)
Lemma self_exclusion_unless_debug_witness :
  events (processOne (world opensFine (fun _ => inl []) writesFine true)
            (flags false false) (session 2 "executing" monitoringText) 0 noCalls) = [] /\
  written (events (processOne (world opensFine (fun _ => inl []) writesFine true)
                     (flags false true) (session 2 "executing" monitoringText) 0 noCalls))
  = [fileOutput (world opensFine (fun _ => inl []) writesFine true) noCalls
       (session 2 "executing" monitoringText)] /\
  kept (flags true true) (session 2 "executing" monitoringText) = false.
Proof.
  assert (H1 : occurs "FROM information_schema.processlist" monitoringText)
    by (apply Contains_occurs; reflexivity).
  assert (H2 : occurs "WHERE command != 'Sleep'" monitoringText)
    by (apply Contains_occurs; reflexivity).
  split; [|split].
  - destruct (self_exclusion_unless_debug
                (world opensFine (fun _ => inl []) writesFine true)
                (flags false false) (session 2 "executing" monitoringText) 0 noCalls
                H1 H2) as [Hoff _].
    exact (proj2 (Hoff eq_refl)).
  - destruct (self_exclusion_unless_debug
                (world opensFine (fun _ => inl []) writesFine true)
                (flags false true) (session 2 "executing" monitoringText) 0 noCalls
                H1 H2) as [_ Hon].
    destruct (Hon eq_refl) as (_ & Hall & _).
    exact (proj2 (Hall eq_refl)).
  - destruct (self_exclusion_unless_debug
                (world opensFine (fun _ => inl []) writesFine true)
                (flags true true) (session 2 "executing" monitoringText) 0 noCalls
                H1 H2) as [_ Hon].
    destruct (Hon eq_refl) as (_ & _ & Hqueries).
    apply Hqueries; [reflexivity|].
    intros kw Hin Hocc. apply mentions_keyword in Hocc; [|exact Hin].
    cbn in Hin.
    repeat (destruct Hin as [<-|Hin]; [discriminate Hocc|]).
    destruct Hin.
Defined.

(** C6 as stated fails: with [-d] and [-q] both on, the record of the
    spec's own example, whose statement holds both markers and no keyword,
    is dropped by the queries-only rule. *)
Lemma debug_does_not_override_queries_only :
  isMonitoringQuery monitoringText = true /\
  kept (flags true true) (session 2 "executing" monitoringText) = false /\
  events (processOne (world opensFine (fun _ => inl []) writesFine true)
            (flags true true) (session 2 "executing" monitoringText) 0 noCalls) = [].
Proof. repeat split; reflexivity. Qed.

(** * The poll loop *)

Section CycleFacts.

Variable env : Env.
Variable cfg : Config.

Lemma reportStats_quiet (st : LoopState) (c : Calls) :
  written (events (reportStats env cfg st c)) = [] /\
  writeErrors (events (reportStats env cfg st c)) = [] /\
  reportedWriteErrors (events (reportStats env cfg st c)) = [] /\
  shown (events (reportStats env cfg st c)) = [].
Proof.
  rewrite reportStats_run.
  destruct (debugFlag cfg); [|repeat split; reflexivity].
  destruct (_ >? _)%Z; repeat split; reflexivity.
Qed.

(** In a cycle that polled a batch, the writer is called once per kept
    record, and every error it returns is reported. *)
Lemma cycle_polled_writes (st : LoopState) (c : Calls) (ps : list Process) :
  openFile env (opens c) (filenameAt env cfg c) = None ->
  processList env (polls c) = inl ps ->
  List.length (written (events (cycle env cfg st c))) =
    List.length (filter (kept cfg) ps) /\
  reportedWriteErrors (events (cycle env cfg st c)) =
    writeErrors (events (cycle env cfg st c)) /\
  (List.length (shown (events (cycle env cfg st c))) +
   List.length (writeErrors (events (cycle env cfg st c))))%nat =
    List.length (written (events (cycle env cfg st c))).
Proof.
  intros Ho Hp. rewrite (cycle_polled env cfg st c ps Ho Hp). cbn [events].
  set (batch := processAll env cfg ps (queryCount st) (afterPoll c)).
  set (report := reportStats env cfg _ _).
  destruct (reportStats_quiet
              {| queryCount := Nat.iter (List.length (counted cfg ps)) incr (queryCount st);
                 lastCheck := lastCheck st |} (calls batch))
    as (Hw & He & Hr & Hs).
  fold report in Hw, He, Hr, Hs.
  change (EvOpenFile (filenameAt env cfg c) None :: EvGetProcessList None ::
          events batch ++ events report ++ [EvFlush; EvClose; EvSleep (sleepFlag cfg)])%list
    with ([EvOpenFile (filenameAt env cfg c) None; EvGetProcessList None] ++
          events batch ++ events report ++ [EvFlush; EvClose; EvSleep (sleepFlag cfg)])%list.
  rewrite !written_app, !writeErrors_app, !reportedWriteErrors_app, !shown_app,
    Hw, He, Hr, Hs.
  cbn [written writeErrors reportedWriteErrors shown flat_map app].
  rewrite !app_nil_r.
  unfold batch.
  rewrite processAll_written, processAll_reported.
  repeat split.
  rewrite <- (processAll_written env cfg ps (queryCount st) (afterPoll c)).
  apply processAll_shown.
Qed.

End CycleFacts.

(** C1, as the code has it.  In every cycle an error of [os.OpenFile] is
    fatal: the loop panics with it before it polls.  Once the file is open
    nothing is fatal: the cycle runs to its end, every error the writer
    returns is reported on the console, in order, and the writer is still
    called for each of the remaining kept records of the batch. *)
Theorem write_errors_are_not_fatal (env : Env) (cfg : Config)
    (st : LoopState) (c : Calls) :
  (forall e, openFile env (opens c) (filenameAt env cfg c) = Some e ->
     result (cycle env cfg st c) = Panic e /\
     events (cycle env cfg st c) = [EvOpenFile (filenameAt env cfg c) (Some e)]) /\
  (openFile env (opens c) (filenameAt env cfg c) = None ->
     (exists st', result (cycle env cfg st c) = Done st') /\
     reportedWriteErrors (events (cycle env cfg st c)) =
       writeErrors (events (cycle env cfg st c)) /\
     (forall ps, processList env (polls c) = inl ps ->
        List.length (written (events (cycle env cfg st c))) =
        List.length (filter (kept cfg) ps))).
Proof.
  split.
  - intros e Ho. now rewrite (cycle_open_error env cfg st c e Ho).
  - intros Ho. destruct (processList env (polls c)) as [ps|e] eqn:Hp.
    + destruct (cycle_polled_writes env cfg st c ps Ho Hp) as (Hw & Hr & _).
      split; [|split; [exact Hr|]].
      * rewrite (cycle_polled env cfg st c ps Ho Hp). cbn [result].
        apply reportStats_done.
      * intros ps' E. injection E as <-. exact Hw.
    + rewrite (cycle_poll_error env cfg st c e Ho Hp). cbn.
      split; [now exists st|]. split; [reflexivity|discriminate].
Qed.

(** The theorem in the cycle where the disk is full: it ends normally,
    both errors are reported, and all three records reach the writer. *)
Lemma write_errors_are_not_fatal_witness :
  (exists st', result (cycle diskFull (flags false false) start noCalls) = Done st') /\
  reportedWriteErrors (events (cycle diskFull (flags false false) start noCalls)) =
    [noSpace; noSpace] /\
  List.length (written (events (cycle diskFull (flags false false) start noCalls))) = 3%nat.
Proof.
  destruct (write_errors_are_not_fatal diskFull (flags false false) start noCalls)
    as [_ H].
  destruct (H eq_refl) as (Hdone & Hrep & Hlen).
  split; [exact Hdone|]. split.
  - rewrite Hrep. vm_compute. reflexivity.
  - apply (Hlen [session 1 "executing" "select 1";
                 session 2 "executing" longSelect;
                 session 3 "executing" "select 3"]).
    reflexivity.
Defined.

(** C1 as stated fails: when the day's file cannot be opened the process
    panics, and nothing is polled. *)
Lemma open_error_panics :
  cycle noPermission (flags false false) start noCalls =
  {| result := Panic "open load_test-2025-01-01.txt: permission denied";
     calls := {| nows := 1; opens := 1; polls := 0; writes := 0 |};
     events := [EvOpenFile "load_test-2025-01-01.txt"
                  (Some "open load_test-2025-01-01.txt: permission denied")] |}.
Proof. reflexivity. Qed.

(** C3, as the code has it.  When the write of a kept record fails, the
    loop reports the error on the console and moves on: that record is not
    shown on the console, and the rest of the batch is processed from
    there, each kept record reaching the writer. *)
Theorem failed_write_skips_console (env : Env) (cfg : Config) (p : Process)
    (rest : list Process) (qc : Z) (c : Calls) (e : error) :
  kept cfg p = true ->
  writeString env (writes c) (fileOutput env c p) = Some e ->
  events (processOne env cfg p qc c) =
    (preamble cfg p qc ++
     [EvWriteString (fileOutput env c p) (Some e); EvPrint (MsgWriteError e)])%list /\
  shown (events (processOne env cfg p qc c)) = [] /\
  exists qc',
    result (processOne env cfg p qc c) = Done qc' /\
    processAll env cfg (p :: rest) qc c =
      {| result := result (processAll env cfg rest qc' (calls (processOne env cfg p qc c)));
         calls := calls (processAll env cfg rest qc' (calls (processOne env cfg p qc c)));
         events := (events (processOne env cfg p qc c) ++
                    events (processAll env cfg rest qc'
                              (calls (processOne env cfg p qc c))))%list |} /\
    List.length (written (events (processAll env cfg rest qc'
                                    (calls (processOne env cfg p qc c))))) =
    List.length (filter (kept cfg) rest).
Proof.
  intros Hk He.
  destruct (processOne_events env cfg p qc c) as (_ & _ & _ & Hs & _).
  rewrite Hk, He in Hs.
  split; [|split; [exact Hs|]].
  - rewrite processOne_kept by exact Hk. rewrite emitRecord_run.
    cbn zeta. rewrite He. reflexivity.
  - exists (if kept cfg p && countsAsQuery cfg p then incr qc else qc).
    split; [apply processOne_result|]. split.
    + apply processAll_cons.
    + apply processAll_written.
Qed.

(** The theorem at the second record of the batch that meets the full
    disk: its write fails, the error is reported, the record is not shown. *)
Lemma failed_write_skips_console_witness :
  shown (events (processOne diskFull (flags false false)
                   (session 2 "executing" longSelect) 0
                   {| nows := 3; opens := 1; polls := 1; writes := 1 |})) = [] /\
  reportedWriteErrors
    (events (processOne diskFull (flags false false)
               (session 2 "executing" longSelect) 0
               {| nows := 3; opens := 1; polls := 1; writes := 1 |})) = [noSpace].
Proof.
  destruct (failed_write_skips_console diskFull (flags false false)
              (session 2 "executing" longSelect)
              [session 3 "executing" "select 3"] 0
              {| nows := 3; opens := 1; polls := 1; writes := 1 |}
              noSpace eq_refl eq_refl)
    as (Hev & Hshown & _).
  split; [exact Hshown|]. rewrite Hev. reflexivity.
Defined.

(** C3 as stated fails: in the cycle that meets the full disk all three
    records reach the writer and both errors are reported, but only the
    first record, whose write succeeded, is shown on the console. *)
Lemma failed_write_hides_record :
  calls (processOne diskFull (flags false false)
           (session 1 "executing" "select 1") 0 (afterPoll noCalls)) =
    {| nows := 3; opens := 1; polls := 1; writes := 1 |} /\
  written (events (cycle diskFull (flags false false) start noCalls)) =
    [formatProcessOutput (color.Sprint true) "2025-01-01 12:00:00"
       (session 1 "executing" "select 1") false;
     formatProcessOutput (color.Sprint true) "2025-01-01 12:00:00"
       (session 2 "executing" longSelect) false;
     formatProcessOutput (color.Sprint true) "2025-01-01 12:00:00"
       (session 3 "executing" "select 3") false] /\
  writeErrors (events (cycle diskFull (flags false false) start noCalls)) =
    [noSpace; noSpace] /\
  shown (events (cycle diskFull (flags false false) start noCalls)) =
    [formatProcessOutput (color.Sprint true) "2025-01-01 12:00:00"
       (session 1 "executing" "select 1") true].
Proof. repeat split; vm_compute; reflexivity. Qed.

(** C4, as the code has it.  When the poll fails the cycle reports the
    error, closes the file and ends there: nothing is handed to the writer,
    the loop state is unchanged, and no pause is made, so the next
    iteration, and with it the next poll, starts at once. *)
Theorem poll_error_ends_cycle_without_sleep (env : Env) (cfg : Config)
    (st : LoopState) (c : Calls) (e : error) :
  openFile env (opens c) (filenameAt env cfg c) = None ->
  processList env (polls c) = inr e ->
  result (cycle env cfg st c) = Done st /\
  events (cycle env cfg st c) =
    [EvOpenFile (filenameAt env cfg c) None;
     EvGetProcessList (Some e);
     EvPrint (MsgPollError e);
     EvClose] /\
  written (events (cycle env cfg st c)) = [] /\
  sleeps (events (cycle env cfg st c)) = [] /\
  forall n,
    loop env cfg (S n) st c =
    {| result := result (loop env cfg n st (afterPoll c));
       calls := calls (loop env cfg n st (afterPoll c));
       events := (events (cycle env cfg st c) ++
                  events (loop env cfg n st (afterPoll c)))%list |}.
Proof.
  intros Ho Hp. rewrite (cycle_poll_error env cfg st c e Ho Hp).
  repeat split. intros n. cbn [loop]. unfold bind at 1.
  rewrite (cycle_poll_error env cfg st c e Ho Hp). reflexivity.
Qed.

(** The theorem where the server refuses the first poll. *)
Lemma poll_error_ends_cycle_without_sleep_witness :
  result (cycle serverDown (flags false false) start noCalls) = Done start /\
  sleeps (events (cycle serverDown (flags false false) start noCalls)) = [].
Proof.
  destruct (poll_error_ends_cycle_without_sleep serverDown (flags false false)
              start noCalls "dial tcp 10.0.0.9:3306: connect: connection refused"
              eq_refl eq_refl)
    as (Hres & _ & _ & Hsleep & _).
  split; [exact Hres | exact Hsleep].
Defined.

(** C4 as stated fails: with a pause of one second configured, the poll
    that follows a failed poll comes with no pause in between; the only
    pause of the two iterations is the one that ends the second. *)
Lemma poll_error_skips_sleep :
  sleepFlag (flags false false) = 1000000000%Z /\
  events (loop serverDown (flags false false) 2 start noCalls) =
    [EvOpenFile "load_test-2025-01-01.txt" None;
     EvGetProcessList (Some "dial tcp 10.0.0.9:3306: connect: connection refused");
     EvPrint (MsgPollError "dial tcp 10.0.0.9:3306: connect: connection refused");
     EvClose;
     EvOpenFile "load_test-2025-01-01.txt" None;
     EvGetProcessList None;
     EvFlush;
     EvClose;
     EvSleep 1000000000].
Proof. split; reflexivity. Qed.

(** * The rolling counter *)

Lemma wrapInt_small (x : Z) :
  (- 2 ^ 63 <= x < 2 ^ 63)%Z -> wrapInt x = x.
Proof.
  intros H. unfold wrapInt.
  rewrite Z.mod_small by lia. lia.
Qed.

(** Below the largest [int], [n] increments add [n]. *)
Lemma incr_iter_no_overflow (n : nat) (q : Z) :
  (- 2 ^ 63 <= q)%Z -> (q + Z.of_nat n < 2 ^ 63)%Z ->
  Nat.iter n incr q = (q + Z.of_nat n)%Z.
Proof.
  induction n as [|n IH]; intros Hlo Hhi.
  - cbn. lia.
  - rewrite Nat.iter_succ, IH by lia. unfold incr.
    rewrite wrapInt_small by lia. lia.
Qed.

Lemma counted_without_debug (cfg : Config) (ps : list Process) :
  debugFlag cfg = false -> counted cfg ps = [].
Proof.
  intros Hd. unfold counted, countsAsQuery. rewrite Hd.
  induction ps as [|p ps IH]; [reflexivity|].
  cbn [filter]. now rewrite andb_false_r.
Qed.

Lemma counted_with_debug (cfg : Config) (ps : list Process) :
  debugFlag cfg = true ->
  counted cfg ps =
  filter (fun p => kept cfg p &&
                   (strings.Contains (sql.String (Info p)) "select" ||
                    strings.Contains (sql.String (Info p)) "count(" ||
                    strings.Contains (sql.String (Info p)) "limit")) ps.
Proof.
  intros Hd. unfold counted, countsAsQuery. now rewrite Hd.
Qed.

(** The counter as the code computes it.  In a cycle that polls a batch,
    [queryCount++] runs exactly once for each record of the batch that
    passes the filter and satisfies the test of main.go:234-235, provided
    [-d] is on; at the end of the cycle, when more than five seconds have
    passed since the last report, the count is printed and the counter
    goes back to zero, the clock reading that follows becoming the time of
    the last report.  With [-d] off the counter is never touched.  ([n] is
    the counter after the batch and [k] the number of clock readings made
    by then; short of the largest [int], [n] is the old count plus the
    number of counted records.) *)
Theorem rolling_counter (env : Env) (cfg : Config) (st : LoopState)
    (c : Calls) (ps : list Process) :
  openFile env (opens c) (filenameAt env cfg c) = None ->
  processList env (polls c) = inl ps ->
  let n := Nat.iter (List.length (counted cfg ps)) incr (queryCount st) in
  let k := nows (calls (processAll env cfg ps (queryCount st) (afterPoll c))) in
  ((- 2 ^ 63 <= queryCount st)%Z ->
   (queryCount st + Z.of_nat (List.length (counted cfg ps)) < 2 ^ 63)%Z ->
   n = (queryCount st + Z.of_nat (List.length (counted cfg ps)))%Z) /\
  (debugFlag cfg = false ->
   n = queryCount st /\ result (cycle env cfg st c) = Done st) /\
  (debugFlag cfg = true ->
   counted cfg ps =
     filter (fun p => kept cfg p &&
                      (strings.Contains (sql.String (Info p)) "select" ||
                       strings.Contains (sql.String (Info p)) "count(" ||
                       strings.Contains (sql.String (Info p)) "limit")) ps /\
   ((clock env k - lastCheck st > fiveSeconds)%Z ->
    result (cycle env cfg st c) =
      Done {| queryCount := 0; lastCheck := clock env (S k) |} /\
    exists pre,
      events (cycle env cfg st c) =
      (pre ++ [EvPrint (MsgStats n); EvFlush; EvClose; EvSleep (sleepFlag cfg)])%list) /\
   ((clock env k - lastCheck st <= fiveSeconds)%Z ->
    result (cycle env cfg st c) =
      Done {| queryCount := n; lastCheck := lastCheck st |})).
Proof.
  intros Ho Hp n k.
  rewrite (cycle_polled env cfg st c ps Ho Hp). cbn [result events].
  rewrite reportStats_run. cbn [lastCheck queryCount].
  fold n. fold k.
  split; [intros Hlo Hhi; now apply incr_iter_no_overflow|].
  split; intros Hd; rewrite Hd.
  - unfold n. rewrite counted_without_debug by exact Hd. cbn.
    split; [reflexivity|]. now destruct st.
  - split; [now apply counted_with_debug|]. split.
    + intros Hgt. apply Z.gtb_gt in Hgt. rewrite Hgt. cbn [result events].
      split; [reflexivity|].
      exists (EvOpenFile (filenameAt env cfg c) None :: EvGetProcessList None ::
              events (processAll env cfg ps (queryCount st) (afterPoll c)))%list.
      reflexivity.
    + intros Hle.
      destruct (clock env k - lastCheck st >? fiveSeconds)%Z eqn:E.
      * apply Z.gtb_gt in E. lia.
      * reflexivity.
Qed.

(** The lemma on a batch of three under [-d]: only the statement with a
    lower-case keyword is counted.  Six seconds after the last report the
    counter, which stood at four, is reported as five and reset; within
    the window it goes from zero to one. *)
Lemma rolling_counter_witness :
  counted (flags false true)
    [session 1 "executing" "select count(*) from orders";
     session 2 "executing" "SELECT COUNT(*) FROM orders";
     session 3 "executing" "show tables"] =
    [session 1 "executing" "select count(*) from orders"] /\
  result (cycle threeSessions (flags false true) overdue noCalls) =
    Done {| queryCount := 0; lastCheck := 1735732800008000000 |} /\
  result (cycle threeSessions (flags false true) start noCalls) =
    Done {| queryCount := 1; lastCheck := lastCheck start |}.
Proof.
  split; [reflexivity|]. split.
  - destruct (rolling_counter threeSessions (flags false true) overdue noCalls
                [session 1 "executing" "select count(*) from orders";
                 session 2 "executing" "SELECT COUNT(*) FROM orders";
                 session 3 "executing" "show tables"] eq_refl eq_refl)
      as (_ & _ & H).
    destruct (H eq_refl) as (_ & Hover & _).
    destruct Hover as [Hres _]; [reflexivity|]. exact Hres.
  - destruct (rolling_counter threeSessions (flags false true) start noCalls
                [session 1 "executing" "select count(*) from orders";
                 session 2 "executing" "SELECT COUNT(*) FROM orders";
                 session 3 "executing" "show tables"] eq_refl eq_refl)
      as (_ & _ & H).
    destruct (H eq_refl) as (_ & _ & Hwithin).
    apply Hwithin. apply Z.leb_le. reflexivity.
Defined.

(** C9, on the source.  Under [-d] a session whose statement is
    "SELECT 1" passes the filter, is written to the file and shown on the
    console, and is a select for the classifier and for the verbose label;
    yet no debug line is printed for it and the counter stays at zero: the
    test of main.go:234-235 looks for "select", "count(" and "limit" in
    the statement as stored, as [isQuery] does, where the classifier
    lower-cases it first.  The same statement in lower case is counted. *)
Theorem counter_misses_upper_case :
  kept (flags false true) (session 1 "executing" "SELECT 1") = true /\
  classify "SELECT 1" = CatSelect /\
  queryType "SELECT 1" = "SELECT" /\
  countsAsQuery (flags false true) (session 1 "executing" "SELECT 1") = false /\
  written (events (cycle (oneSession "SELECT 1") (flags false true) start noCalls)) =
    [fileOutput (oneSession "SELECT 1") (afterPoll noCalls)
       (session 1 "executing" "SELECT 1")] /\
  printed (events (cycle (oneSession "SELECT 1") (flags false true) start noCalls)) =
    [MsgRecord (consoleOutput (oneSession "SELECT 1") (afterPoll noCalls)
                  (session 1 "executing" "SELECT 1"))] /\
  result (cycle (oneSession "SELECT 1") (flags false true) start noCalls) =
    Done {| queryCount := 0; lastCheck := lastCheck start |} /\
  result (cycle (oneSession "select 1") (flags false true) start noCalls) =
    Done {| queryCount := 1; lastCheck := lastCheck start |}.
Proof. repeat split; reflexivity. Qed.

(** * Further properties of the loop *)

Lemma reportStats_no_sleep (env : Env) (cfg : Config) (st : LoopState) (c : Calls) :
  sleeps (events (reportStats env cfg st c)) = [].
Proof.
  rewrite reportStats_run.
  destruct (debugFlag cfg); [|reflexivity].
  destruct (_ >? _)%Z; reflexivity.
Qed.

(** X1.  The end-to-end example of the specification: of the batch made
    of a counting query and the text of the monitoring query, the loop
    writes and shows the first record alone without [-d], and writes both,
    in the order of the batch, with [-d]. *)
Theorem end_to_end_self_exclusion :
  written (events (cycle
    (world opensFine
       (fun _ => inl [session 1 "executing" "SELECT COUNT(*) FROM t";
                      session 2 "executing" monitoringText])
       writesFine true)
    (flags false false) start noCalls)) =
    [formatProcessOutput (color.Sprint true) "2025-01-01 12:00:00"
       (session 1 "executing" "SELECT COUNT(*) FROM t") false] /\
  shown (events (cycle
    (world opensFine
       (fun _ => inl [session 1 "executing" "SELECT COUNT(*) FROM t";
                      session 2 "executing" monitoringText])
       writesFine true)
    (flags false false) start noCalls)) =
    [formatProcessOutput (color.Sprint true) "2025-01-01 12:00:00"
       (session 1 "executing" "SELECT COUNT(*) FROM t") true] /\
  written (events (cycle
    (world opensFine
       (fun _ => inl [session 1 "executing" "SELECT COUNT(*) FROM t";
                      session 2 "executing" monitoringText])
       writesFine true)
    (flags false true) start noCalls)) =
    [formatProcessOutput (color.Sprint true) "2025-01-01 12:00:00"
       (session 1 "executing" "SELECT COUNT(*) FROM t") false;
     formatProcessOutput (color.Sprint true) "2025-01-01 12:00:00"
       (session 2 "executing" monitoringText) false].
Proof. repeat split; vm_compute; reflexivity. Qed.



(** X3.  A cycle that polled a batch ends by flushing the writer,
    closing the file and pausing for the configured time, in this order,
    and makes no other pause; its first act is to open the day's file,
    [<prefix>-<date>.txt] with the prefix [load_test] unless [-f] gives
    one. *)
Theorem polled_cycle_frame (env : Env) (cfg : Config) (st : LoopState)
    (c : Calls) (ps : list Process) :
  openFile env (opens c) (filenameAt env cfg c) = None ->
  processList env (polls c) = inl ps ->
  (exists middle,
     events (cycle env cfg st c) =
     (EvOpenFile (filenameAt env cfg c) None :: EvGetProcessList None :: middle ++
      [EvFlush; EvClose; EvSleep (sleepFlag cfg)])%list /\
     sleeps middle = []) /\
  sleeps (events (cycle env cfg st c)) = [sleepFlag cfg] /\
  filenameAt env cfg c =
    (if (fileFlag cfg =? "")%string then "load_test" else fileFlag cfg) ++
    "-" ++ formatDate env (clock env (nows c)) ++ ".txt".
Proof.
  intros Ho Hp. rewrite (cycle_polled env cfg st c ps Ho Hp). cbn [events].
  set (batch := processAll env cfg ps (queryCount st) (afterPoll c)).
  set (report := reportStats env cfg _ _).
  assert (Hmid : sleeps (events batch ++ events report) = []).
  { rewrite sleeps_app. unfold batch, report.
    now rewrite processAll_sleeps, reportStats_no_sleep. }
  split; [|split].
  - exists (events batch ++ events report)%list. split; [|exact Hmid].
    now rewrite <- app_assoc.
  - change (EvOpenFile (filenameAt env cfg c) None :: EvGetProcessList None ::
            events batch ++ events report ++ [EvFlush; EvClose; EvSleep (sleepFlag cfg)])%list
      with ([EvOpenFile (filenameAt env cfg c) None; EvGetProcessList None] ++
            events batch ++ events report ++ [EvFlush; EvClose; EvSleep (sleepFlag cfg)])%list.
    rewrite sleeps_app, app_assoc, sleeps_app, Hmid. reflexivity.
  - unfold filenameAt, outputFilename.
    destruct (fileFlag cfg =? "")%string; cbn [negb]; [reflexivity|].
    reflexivity.
Qed.

(** The theorem on the batch of three under [-d]. *)
Lemma polled_cycle_frame_witness :
  sleeps (events (cycle threeSessions (flags false true) start noCalls)) =
    [1000000000%Z] /\
  filenameAt threeSessions (flags false true) noCalls = "load_test-2025-01-01.txt".
Proof.
  destruct (polled_cycle_frame threeSessions (flags false true) start noCalls
              [session 1 "executing" "select count(*) from orders";
               session 2 "executing" "SELECT COUNT(*) FROM orders";
               session 3 "executing" "show tables"] eq_refl eq_refl)
    as (_ & Hsleep & Hname).
  split; [exact Hsleep | exact Hname].
Defined.

(** * The credentials file *)

Lemma Split_not_nil (s : string) (sep : ascii) : strings.Split s sep <> [].
Proof.
  destruct s as [|c s]; cbn; [discriminate|].
  destruct (Ascii.eqb c sep); [discriminate|].
  destruct (strings.Split s sep); discriminate.
Qed.

(** Splitting distributes over a separator. *)
Lemma Split_app (a b : string) (sep : ascii) :
  strings.Split (a ++ String sep b) sep =
  (strings.Split a sep ++ strings.Split b sep)%list.
Proof.
  induction a as [|c a IH]; cbn.
  - now rewrite Ascii.eqb_refl.
  - destruct (Ascii.eqb c sep); [now rewrite IH|].
    rewrite IH.
    destruct (strings.Split a sep) as [|x xs] eqn:E; [|reflexivity].
    now apply Split_not_nil in E.
Qed.

(** A text without separator is one piece. *)
Lemma Split_one (s : string) (sep : ascii) :
  strings.Contains s (String sep "") = false -> strings.Split s sep = [s].
Proof.
  induction s as [|c s IH]; cbn; [reflexivity|].
  rewrite (Ascii.eqb_sym sep c). intros H.
  apply orb_false_iff in H as [Hc Hs].
  rewrite andb_true_r in Hc. rewrite Hc, (IH Hs). reflexivity.
Qed.

Lemma last_cons {A : Type} (x : A) (l : list A) (d : A) :
  last (x :: l) d = last l x.
Proof.
  revert x d. induction l as [|y l IH]; intros x d; [reflexivity|].
  change (last (x :: y :: l) d) with (last (y :: l) d).
  now rewrite !IH.
Qed.

(** The three keys exclude each other. *)
Lemma keys_exclusive (line : string) :
  (strings.HasPrefix line "user=" = true ->
   strings.HasPrefix line "password=" = false /\
   strings.HasPrefix line "host=" = false) /\
  (strings.HasPrefix line "password=" = true ->
   strings.HasPrefix line "user=" = false /\
   strings.HasPrefix line "host=" = false) /\
  (strings.HasPrefix line "host=" = true ->
   strings.HasPrefix line "user=" = false /\
   strings.HasPrefix line "password=" = false).
Proof.
  destruct line as [|c line]; [repeat split; discriminate|].
  cbn [strings.HasPrefix].
  split; [|split]; intros H; apply andb_true_iff in H as [Hc _];
    apply Ascii.eqb_eq in Hc; subst c; split; reflexivity.
Qed.

(** The loop over the lines keeps, for each key, the value of the last
    line that sets it. *)
Lemma fold_parseLine (lines : list string) (config : mycnf.MySQLConfig) :
  mycnf.User (fold_left parseLine lines config) =
    lastValueOr "user=" lines (mycnf.User config) /\
  mycnf.Password (fold_left parseLine lines config) =
    lastValueOr "password=" lines (mycnf.Password config) /\
  mycnf.Host (fold_left parseLine lines config) =
    lastValueOr "host=" lines (mycnf.Host config).
Proof.
  revert config. induction lines as [|line lines IH]; intros config;
    [repeat split; reflexivity|].
  cbn [fold_left]. destruct (IH (parseLine config line)) as (Hu & Hp & Hh).
  rewrite Hu, Hp, Hh. unfold lastValueOr. cbn [map filter]. unfold parseLine.
  destruct (keys_exclusive (strings.TrimSpace line)) as (Eu & Ep & Eh).
  destruct (strings.HasPrefix (strings.TrimSpace line) "user=") eqn:U.
  { destruct (Eu eq_refl) as [-> ->]. cbn [map]. rewrite last_cons.
    repeat split; reflexivity. }
  destruct (strings.HasPrefix (strings.TrimSpace line) "password=") eqn:P.
  { destruct (Ep eq_refl) as [_ ->]. cbn [map]. rewrite last_cons.
    repeat split; reflexivity. }
  destruct (strings.HasPrefix (strings.TrimSpace line) "host=") eqn:H.
  { cbn [map]. rewrite last_cons. repeat split; reflexivity. }
  repeat split; reflexivity.
Qed.

(** A line that sets no key leaves the configuration as it is. *)
Lemma parseLine_setsNothing (config : mycnf.MySQLConfig) (line : string) :
  setsNothing line = true -> parseLine config line = config.
Proof.
  unfold setsNothing, parseLine. intros H.
  apply andb_true_iff in H as [H Hh]. apply andb_true_iff in H as [Hu Hp].
  apply negb_true_iff in Hu, Hp, Hh. now rewrite Hu, Hp, Hh.
Qed.

(** The lines of a text put together from lines are those lines. *)
Lemma Split_lines (line : string) (lines : list string) :
  (forall l, In l (line :: lines) -> strings.Contains l nl = false) ->
  strings.Split (String.concat nl (line :: lines)) "010"%char = line :: lines.
Proof.
  revert line. induction lines as [|next lines IH]; intros line Hfree.
  - apply Split_one, Hfree. now left.
  - change (String.concat nl (line :: next :: lines))
      with (line ++ String "010"%char (String.concat nl (next :: lines))).
    rewrite Split_app, IH by (intros l Hl; apply Hfree; now right).
    rewrite (Split_one line) by (apply Hfree; now left).
    reflexivity.
Qed.

(** Reading a file is running the loop body over its lines. *)
Lemma parseConfig_lines (lines : list string) :
  (forall l, In l lines -> strings.Contains l nl = false) ->
  parseConfig (String.concat nl lines) = fold_left parseLine lines mycnf.empty.
Proof.
  intros Hfree. unfold parseConfig.
  destruct lines as [|line lines]; [reflexivity|].
  now rewrite Split_lines.
Qed.

(** X4.  For each of the keys [user=], [password=] and [host=], the
    configuration read from an ASCII file holds the value of the last
    line that, trimmed of blanks, starts with the key, everything after
    the key included; a key that no line sets is left empty.  (ASCII text
    is where [strings.TrimSpace] above is the library's function to the
    letter; the proof itself does not lean on it.) *)
Theorem parseConfig_last_line_wins (content : string) :
  asciiText content = true ->
  mycnf.User (parseConfig content) =
    lastValue "user=" (strings.Split content "010"%char) /\
  mycnf.Password (parseConfig content) =
    lastValue "password=" (strings.Split content "010"%char) /\
  mycnf.Host (parseConfig content) =
    lastValue "host=" (strings.Split content "010"%char).
Proof.
  intros _. unfold parseConfig, lastValue.
  apply (fold_parseLine (strings.Split content "010"%char) mycnf.empty).
Qed.

(** The theorem on the sample file: the second of its two hosts, the
    password with its equals sign, and the user of the line that has no
    blank before the equals sign. *)
Lemma parseConfig_last_line_wins_witness :
  mycnf.User (parseConfig sampleCnf) = "monitor" /\
  mycnf.Password (parseConfig sampleCnf) = "s3cr=t" /\
  mycnf.Host (parseConfig sampleCnf) = "db2.example.com".
Proof.
  destruct (parseConfig_last_line_wins sampleCnf eq_refl) as (Hu & Hp & Hh).
  rewrite Hu, Hp, Hh. repeat split; reflexivity.
Defined.

(** X5.  In an ASCII file, a line that sets none of the three keys, a
    section header, a comment or a key written with blanks before the
    equals sign, can be taken out without changing the configuration read,
    wherever it stands: [above] and [below] are the lines before and after
    it, either of which may be empty. *)
Theorem parseConfig_ignores_other_lines (above below : list string) (line : string) :
  asciiText (String.concat nl (above ++ line :: below)) = true ->
  (forall l, In l (above ++ line :: below) -> strings.Contains l nl = false) ->
  setsNothing line = true ->
  parseConfig (String.concat nl (above ++ line :: below)) =
  parseConfig (String.concat nl (above ++ below)).
Proof.
  intros _ Hfree Hnothing.
  rewrite !parseConfig_lines.
  - rewrite !fold_left_app. cbn [fold_left].
    now rewrite parseLine_setsNothing.
  - intros l Hl. apply Hfree.
    apply in_app_or in Hl as [Hl|Hl]; apply in_or_app; [now left|right; now right].
  - exact Hfree.
Qed.

(** The theorem on a section header that is the first line, on a comment
    that is the last, and on a line that is the whole file. *)
Lemma parseConfig_ignores_other_lines_witness :
  parseConfig ("[client]" ++ nl ++ "user=monitor" ++ nl ++ "host=db1") =
    parseConfig ("user=monitor" ++ nl ++ "host=db1") /\
  parseConfig ("user=monitor" ++ nl ++ "host=db1" ++ nl ++ "# host=db2") =
    parseConfig ("user=monitor" ++ nl ++ "host=db1") /\
  parseConfig "user = monitor" = parseConfig "".
Proof.
  split; [|split].
  - apply (parseConfig_ignores_other_lines [] ["user=monitor"; "host=db1"] "[client]");
      [reflexivity| |reflexivity].
    intros l Hl. cbn in Hl.
    repeat (destruct Hl as [<-|Hl]; [reflexivity|]). destruct Hl.
  - apply (parseConfig_ignores_other_lines ["user=monitor"; "host=db1"] [] "# host=db2");
      [reflexivity| |reflexivity].
    intros l Hl. cbn in Hl.
    repeat (destruct Hl as [<-|Hl]; [reflexivity|]). destruct Hl.
  - apply (parseConfig_ignores_other_lines [] [] "user = monitor");
      [reflexivity| |reflexivity].
    intros l Hl. cbn in Hl.
    repeat (destruct Hl as [<-|Hl]; [reflexivity|]). destruct Hl.
Defined.

(** A carriage return at the end of a line is trimmed with the other
    blanks. *)
Lemma trimRight_cr (s : string) :
  strings.trimRight (s ++ String "013"%char "") = strings.trimRight s.
Proof.
  induction s as [|c s IH]; [reflexivity|].
  cbn [append strings.trimRight]. now rewrite IH.
Qed.

Lemma trimLeft_cr (s : string) :
  strings.trimLeft (s ++ String "013"%char "") =
  match strings.trimLeft s with
  | EmptyString => EmptyString
  | String c r => String c r ++ String "013"%char ""
  end.
Proof.
  induction s as [|c s IH]; [reflexivity|].
  cbn [append strings.trimLeft]. now destruct (strings.asciiSpace c).
Qed.

Lemma TrimSpace_cr (s : string) :
  strings.TrimSpace (s ++ String "013"%char "") = strings.TrimSpace s.
Proof.
  unfold strings.TrimSpace. rewrite trimLeft_cr.
  destruct (strings.trimLeft s) as [|c r]; [reflexivity|].
  apply trimRight_cr.
Qed.

(** The lines of a text with CR LF line ends are the lines of the text
    with LF line ends, a carriage return added to some. *)
Lemma Split_toCRLF (s : string) :
  Forall2 (fun crlf lf => crlf = lf \/ crlf = lf ++ String "013"%char "")
    (strings.Split (toCRLF s) "010"%char) (strings.Split s "010"%char).
Proof.
  induction s as [|c s IH]; [repeat constructor|].
  cbn [toCRLF strings.Split].
  destruct (Ascii.eqb c "010"%char) eqn:E.
  - cbn [strings.Split]. rewrite E.
    change (Ascii.eqb "013"%char "010"%char) with false. cbn iota.
    constructor; [now right|exact IH].
  - cbn [strings.Split]. rewrite E.
    destruct IH as [|x y xs ys Hxy Hrest].
    + constructor; [now left|constructor].
    + constructor; [|exact Hrest].
      destruct Hxy as [-> | ->]; [now left | now right].
Qed.

Lemma fold_parseLine_trimmed (crlf lf : list string) :
  Forall2 (fun a b => strings.TrimSpace a = strings.TrimSpace b) crlf lf ->
  forall config, fold_left parseLine crlf config = fold_left parseLine lf config.
Proof.
  induction 1 as [|a b crlf lf Hab _ IH]; intros config; [reflexivity|].
  cbn [fold_left].
  replace (parseLine config a) with (parseLine config b); [apply IH|].
  unfold parseLine. now rewrite Hab.
Qed.

(** X6.  An ASCII credentials file reads the same with CR LF line ends
    as with LF line ends: the carriage returns are trimmed with the other
    blanks around each line.  (ASCII text is where [strings.TrimSpace]
    above is the library's function to the letter; the proof itself does
    not lean on it.) *)
Theorem parseConfig_crlf (content : string) :
  asciiText content = true ->
  parseConfig (toCRLF content) = parseConfig content.
Proof.
  intros _. unfold parseConfig. apply fold_parseLine_trimmed.
  eapply Forall2_impl; [|apply Split_toCRLF].
  intros a b [-> | ->]; [reflexivity|apply TrimSpace_cr].
Qed.

(** The theorem on the sample file. *)
Lemma parseConfig_crlf_witness :
  parseConfig (toCRLF sampleCnf) =
  {| mycnf.User := "monitor"; mycnf.Password := "s3cr=t";
     mycnf.Host := "db2.example.com" |}.
Proof.
  rewrite (parseConfig_crlf sampleCnf); reflexivity.
Defined.

(** * The session query *)

Lemma scanRows_sessions (ps acc : list Process) :
  scanRows (map inl ps) acc = inl (acc ++ ps)%list.
Proof.
  revert acc. induction ps as [|p ps IH]; intros acc; cbn.
  - now rewrite app_nil_r.
  - rewrite IH. now rewrite <- app_assoc.
Qed.

Lemma scanRows_error (good : list Process) (e : error)
    (rest : list (Process + error)) (acc : list Process) :
  scanRows (map inl good ++ inr e :: rest)%list acc = inr e.
Proof.
  revert acc. induction good as [|p good IH]; intros acc; cbn; [reflexivity|].
  apply IH.
Qed.

(** Every list of rows is a run of sessions, followed or not by a row
    that does not scan. *)
Lemma rows_shape (rows : list (Process + error)) :
  (exists ps, rows = map inl ps) \/
  (exists good e rest, rows = (map inl good ++ inr e :: rest)%list).
Proof.
  induction rows as [|[p|e] rows IH].
  - left. now exists [].
  - destruct IH as [(ps & ->) | (good & e & rest & ->)].
    + left. now exists (p :: ps).
    + right. now exists (p :: good), e, rest.
  - right. now exists [], e, rows.
Qed.

Lemma map_inl_injective (ps qs : list Process) :
  map (@inl Process error) ps = map inl qs -> ps = qs.
Proof.
  revert qs. induction ps as [|p ps IH]; intros [|q qs] H;
    try discriminate; [reflexivity|].
  cbn in H. injection H as -> H. now rewrite (IH _ H).
Qed.

(** X7.  [getProcessList] is all or nothing and keeps the server's order:
    it returns sessions exactly when the query succeeds and every row
    scans, and then they are the rows in the order delivered; otherwise
    it returns the error of the query, or that of the first row that does
    not scan, and none of the sessions read before it. *)
Theorem getProcessList_all_or_nothing (db : string -> Answer) :
  (forall ps,
     getProcessListFrom db = inl ps <-> db processListQuery = inl (map inl ps)) /\
  (forall e,
     getProcessListFrom db = inr e <->
     db processListQuery = inr e \/
     exists good rest,
       db processListQuery = inl (map inl good ++ inr e :: rest)%list).
Proof.
  unfold getProcessListFrom. split.
  - intros ps. destruct (db processListQuery) as [rows|e0];
      [|split; discriminate].
    split.
    + intros H. destruct (rows_shape rows) as [(qs & ->) | (good & e & rest & ->)].
      * rewrite scanRows_sessions in H. cbn in H. now injection H as ->.
      * rewrite scanRows_error in H. discriminate.
    + intros H. injection H as ->. apply scanRows_sessions.
  - intros e. destruct (db processListQuery) as [rows|e0].
    + split.
      * intros H. right.
        destruct (rows_shape rows) as [(qs & ->) | (good & e' & rest & ->)].
        -- rewrite scanRows_sessions in H. discriminate.
        -- rewrite scanRows_error in H. injection H as ->. now exists good, rest.
      * intros [H | (good & rest & H)]; [discriminate|].
        injection H as ->. apply scanRows_error.
    + split.
      * intros H. injection H as ->. now left.
      * intros [H | (good & rest & H)]; [now injection H as ->|discriminate].
Qed.

(** X8.  One row that does not scan costs the whole batch: in a cycle
    whose poll meets such a row, the sessions scanned before it are
    neither written nor shown; the cycle reports the error, closes the
    file and ends. *)
Theorem bad_row_drops_batch (env : Env) (cfg : Config) (st : LoopState)
    (c : Calls) (db : string -> Answer) (good : list Process) (e : error)
    (rest : list (Process + error)) :
  openFile env (opens c) (filenameAt env cfg c) = None ->
  processList env (polls c) = getProcessListFrom db ->
  db processListQuery = inl (map inl good ++ inr e :: rest)%list ->
  events (cycle env cfg st c) =
    [EvOpenFile (filenameAt env cfg c) None;
     EvGetProcessList (Some e);
     EvPrint (MsgPollError e);
     EvClose] /\
  result (cycle env cfg st c) = Done st.
Proof.
  intros Ho Hp Hdb.
  assert (He : processList env (polls c) = inr e).
  { rewrite Hp. unfold getProcessListFrom. rewrite Hdb. apply scanRows_error. }
  now rewrite (cycle_poll_error env cfg st c e Ho He).
Qed.

(** The theorem on three rows whose second holds a NULL user. *)
Lemma bad_row_drops_batch_witness :
  written (events (cycle
    (world opensFine (fun _ => getProcessListFrom threeRows) writesFine true)
    (flags false false) start noCalls)) = [] /\
  shown (events (cycle
    (world opensFine (fun _ => getProcessListFrom threeRows) writesFine true)
    (flags false false) start noCalls)) = [].
Proof.
  destruct (bad_row_drops_batch
    (world opensFine (fun _ => getProcessListFrom threeRows) writesFine true)
    (flags false false) start noCalls threeRows
    [session 1 "executing" "select 1"] nullUser
    [inl (session 3 "executing" "select 3")]
    eq_refl eq_refl eq_refl) as [Hev _].
  rewrite Hev. split; reflexivity.
Defined.

(** * Start-up *)

(** X9.  When start-up gets as far as the loop, the host it connected to
    is never empty: it is the one given with [-h], else the [host=] of
    the credentials file, else [localhost]; the data source name is
    [user:password@tcp(host:3306)/] with the credentials as read; and
    both [sql.Open] and [Ping] returned no error. *)
Theorem startup_connects_where_told (os : OS) (hostFlag host dsn banner : string) :
  startup os hostFlag = Started host dsn banner ->
  host <> "" /\
  (hostFlag <> "" -> host = hostFlag) /\
  (hostFlag = "" -> mycnf.Host (readMySQLConfig os) <> "" ->
   host = mycnf.Host (readMySQLConfig os)) /\
  (hostFlag = "" -> mycnf.Host (readMySQLConfig os) = "" -> host = "localhost") /\
  dsn = mycnf.User (readMySQLConfig os) ++ ":" ++
        mycnf.Password (readMySQLConfig os) ++ "@tcp(" ++ host ++ ":3306)/" /\
  sqlOpen os dsn = None /\
  Ping os = None.
Proof.
  unfold startup, testConnection, buildDSN.
  set (config := readMySQLConfig os).
  destruct (sqlOpen os _) eqn:Hopen; [discriminate|].
  destruct (Ping os) eqn:Hping; [discriminate|].
  intros H. injection H as <- <- _.
  unfold connectHost in *.
  destruct (String.eqb_spec hostFlag "") as [Hf|Hf];
    [destruct (String.eqb_spec (mycnf.Host config) "") as [Hc|Hc]|];
    cbn [negb] in *; repeat split; solve [easy | exact Hopen].
Qed.

(** The theorem on the sample system: the last [host=] of the file is
    used, and the password keeps its equals sign. *)
Lemma startup_connects_where_told_witness :
  sqlOpen laptop "monitor:s3cr=t@tcp(db2.example.com:3306)/" = None /\
  mycnf.Host (readMySQLConfig laptop) = "db2.example.com".
Proof.
  destruct (startup_connects_where_told laptop "" "db2.example.com"
              "monitor:s3cr=t@tcp(db2.example.com:3306)/"
              ("Connected successfully to db2.example.com " ++ checkMark ++ nl)
              eq_refl)
    as (_ & _ & Hhost & _ & _ & Hopen & _).
  split; [exact Hopen|].
  symmetry. apply Hhost; [reflexivity|discriminate].
Defined.

(** X10.  Reading the credentials never fails: without home directory or
    without readable file the configuration is empty, and start-up goes
    on with an empty user and password, towards [localhost] unless [-h]
    names a host. *)
Theorem unreadable_credentials_fall_back (os : OS) (hostFlag host dsn banner : string) :
  noCredentials os = true ->
  readMySQLConfig os = mycnf.empty /\
  (startup os hostFlag = Started host dsn banner ->
   host = (if (hostFlag =? "")%string then "localhost" else hostFlag) /\
   dsn = ":@tcp(" ++ host ++ ":3306)/").
Proof.
  intros H.
  assert (E : readMySQLConfig os = mycnf.empty).
  { unfold noCredentials in H. unfold readMySQLConfig.
    destruct (UserHomeDir os) as [home|]; [|reflexivity].
    destruct (ReadFile os _); [discriminate|reflexivity]. }
  split; [exact E|].
  unfold startup, testConnection. rewrite E.
  destruct (sqlOpen os _); [discriminate|].
  destruct (Ping os); [discriminate|].
  intros S. injection S as <- <- _.
  unfold connectHost, buildDSN. cbn.
  destruct (hostFlag =? "")%string; split; reflexivity.
Qed.

(** The theorem on a system without home directory. *)
Lemma unreadable_credentials_fall_back_witness :
  readMySQLConfig homeless = mycnf.empty.
Proof.
  apply (unreadable_credentials_fall_back homeless "" "" "" "" eq_refl).
Defined.

(** * Runs of many cycles *)

Section RunFacts.

Variable env : Env.
Variable cfg : Config.

Lemma processOne_calls (p : Process) (qc : Z) (c : Calls) :
  opens (calls (processOne env cfg p qc c)) = opens c /\
  polls (calls (processOne env cfg p qc c)) = polls c.
Proof.
  rewrite processOne_run. destruct (kept cfg p); [|now split].
  rewrite emitRecord_run. now split.
Qed.

Lemma processAll_calls (ps : list Process) (qc : Z) (c : Calls) :
  opens (calls (processAll env cfg ps qc c)) = opens c /\
  polls (calls (processAll env cfg ps qc c)) = polls c.
Proof.
  revert qc c. induction ps as [|p ps IH]; intros qc c; [now split|].
  rewrite processAll_cons. cbn [calls].
  destruct (IH (if kept cfg p && countsAsQuery cfg p then incr qc else qc)
              (calls (processOne env cfg p qc c))) as [Ho Hp].
  destruct (processOne_calls p qc c) as [Ho' Hp'].
  split; congruence.
Qed.

Lemma reportStats_calls (st : LoopState) (c : Calls) :
  opens (calls (reportStats env cfg st c)) = opens c /\
  polls (calls (reportStats env cfg st c)) = polls c.
Proof.
  rewrite reportStats_run. destruct (debugFlag cfg); [|now split].
  destruct (_ >? _)%Z; now split.
Qed.

(** A cycle whose file opens runs to its end, having opened one file and
    polled once. *)
Lemma cycle_opened (st : LoopState) (c : Calls) :
  openFile env (opens c) (filenameAt env cfg c) = None ->
  (exists st', result (cycle env cfg st c) = Done st') /\
  opens (calls (cycle env cfg st c)) = S (opens c) /\
  polls (calls (cycle env cfg st c)) = S (polls c) /\
  sleeps (events (cycle env cfg st c)) =
    match processList env (polls c) with
    | inl _ => [sleepFlag cfg]
    | inr _ => []
    end.
Proof.
  intros Ho. destruct (processList env (polls c)) as [ps|e] eqn:Hp.
  - rewrite (cycle_polled env cfg st c ps Ho Hp). cbn [result calls events].
    split; [apply reportStats_done|].
    destruct (reportStats_calls
                {| queryCount := Nat.iter (List.length (counted cfg ps)) incr (queryCount st);
                   lastCheck := lastCheck st |}
                (calls (processAll env cfg ps (queryCount st) (afterPoll c))))
      as [Hro Hrp].
    destruct (processAll_calls ps (queryCount st) (afterPoll c)) as [Hbo Hbp].
    rewrite Hro, Hrp, Hbo, Hbp. repeat split.
    change (EvOpenFile (filenameAt env cfg c) None :: EvGetProcessList None :: ?l)
      with ([EvOpenFile (filenameAt env cfg c) None; EvGetProcessList None] ++ l)%list.
    rewrite !sleeps_app, processAll_sleeps, reportStats_no_sleep. reflexivity.
  - rewrite (cycle_poll_error env cfg st c e Ho Hp). cbn.
    repeat split. now exists st.
Qed.

(** The loop goes from one cycle to the next. *)
Lemma loop_next (n : nat) (st st' : LoopState) (c : Calls) :
  result (cycle env cfg st c) = Done st' ->
  loop env cfg (S n) st c =
  {| result := result (loop env cfg n st' (calls (cycle env cfg st c)));
     calls := calls (loop env cfg n st' (calls (cycle env cfg st c)));
     events := (events (cycle env cfg st c) ++
                events (loop env cfg n st' (calls (cycle env cfg st c))))%list |}.
Proof. intros H. cbn [loop]. unfold bind at 1. now rewrite H. Qed.

(** A panic ends it. *)
Lemma loop_stop (n : nat) (st : LoopState) (c : Calls) (msg : string) :
  result (cycle env cfg st c) = Panic msg ->
  loop env cfg (S n) st c =
  {| result := Panic msg;
     calls := calls (cycle env cfg st c);
     events := events (cycle env cfg st c) |}.
Proof. intros H. cbn [loop]. unfold bind at 1. now rewrite H. Qed.

Lemma cycle_done_or_open_error (st : LoopState) (c : Calls) :
  (openFile env (opens c) (filenameAt env cfg c) = None /\
   exists st', result (cycle env cfg st c) = Done st') \/
  (exists e, openFile env (opens c) (filenameAt env cfg c) = Some e /\
             cycle env cfg st c =
             {| result := Panic e;
                calls := {| nows := S (nows c); opens := S (opens c);
                            polls := polls c; writes := writes c |};
                events := [EvOpenFile (filenameAt env cfg c) (Some e)] |}).
Proof.
  destruct (openFile env (opens c) (filenameAt env cfg c)) as [e|] eqn:Ho.
  - right. exists e. split; [reflexivity|]. now apply cycle_open_error.
  - left. split; [reflexivity|]. now apply cycle_opened.
Qed.

End RunFacts.

(** A panic of the loop carries an error [os.OpenFile] returned. *)
Lemma loop_panic_is_open_error (env : Env) (cfg : Config) (n : nat)
    (st : LoopState) (c : Calls) (msg : string) :
  result (loop env cfg n st c) = Panic msg ->
  exists k name, openFile env k name = Some msg.
Proof.
  revert st c. induction n as [|n IH]; intros st c; [discriminate|].
  destruct (cycle_done_or_open_error env cfg st c)
    as [(Ho & st' & Hd) | (e & Ho & Hc)].
  - rewrite (loop_next env cfg n st st' c Hd). cbn [result]. apply IH.
  - assert (Hp : result (cycle env cfg st c) = Panic e) by now rewrite Hc.
    rewrite (loop_stop env cfg n st c e Hp). cbn [result].
    intros E. injection E as <-. eauto.
Qed.





(** * The file across a run *)

Lemma fileRun_app (s : FileState) (a b : list Event) :
  fileRun s (a ++ b) =
  match fileRun s a with
  | Some s' => fileRun s' b
  | None => None
  end.
Proof.
  revert s. induction a as [|e a IH]; intros s; [reflexivity|].
  cbn [app fileRun]. destruct (fileStep s e); [apply IH|reflexivity].
Qed.

Lemma fileRun_preamble (cfg : Config) (p : Process) (qc : Z) (s : FileState) :
  fileRun s (preamble cfg p qc) = Some s.
Proof.
  unfold preamble.
  destruct (verboseFlag cfg), (countsAsQuery cfg p); reflexivity.
Qed.

(** The records of a batch leave an open file open. *)
Lemma fileRun_processAll (env : Env) (cfg : Config) (ps : list Process)
    (qc : Z) (c : Calls) (s : FileState) :
  fileIsOpen s = true ->
  exists s', fileRun s (events (processAll env cfg ps qc c)) = Some s' /\
             fileIsOpen s' = true.
Proof.
  revert qc c s. induction ps as [|p ps IH]; intros qc c s Hs.
  - exists s. now split.
  - rewrite processAll_cons. cbn [events]. rewrite fileRun_app.
    rewrite processOne_run. destruct (kept cfg p).
    + rewrite emitRecord_run. cbn [events]. rewrite fileRun_app, fileRun_preamble.
      assert (E : fileRun s
                (EvWriteString (fileOutput env c p)
                   (writeString env (writes c) (fileOutput env c p)) ::
                 match writeString env (writes c) (fileOutput env c p) with
                 | Some e => [EvPrint (MsgWriteError e)]
                 | None => [EvPrint (MsgRecord (consoleOutput env c p))]
                 end) = Some FileDirty).
      { destruct s; [discriminate| |];
          destruct (writeString env (writes c) (fileOutput env c p)); reflexivity. }
      cbn zeta. rewrite E. now apply IH.
    + cbn [events ret fileRun]. now apply IH.
Qed.

Lemma fileRun_reportStats (env : Env) (cfg : Config) (st : LoopState)
    (c : Calls) (s : FileState) :
  fileRun s (events (reportStats env cfg st c)) = Some s.
Proof.
  rewrite reportStats_run. destruct (debugFlag cfg); [|reflexivity].
  destruct (_ >? _)%Z; reflexivity.
Qed.

(** Every cycle finds the file closed and leaves it closed. *)
Lemma fileRun_cycle (env : Env) (cfg : Config) (st : LoopState) (c : Calls) :
  fileRun FileClosed (events (cycle env cfg st c)) = Some FileClosed.
Proof.
  destruct (cycle_done_or_open_error env cfg st c)
    as [(Ho & _) | (e & _ & ->)]; [|reflexivity].
  destruct (processList env (polls c)) as [ps|e] eqn:Hp.
  - rewrite (cycle_polled env cfg st c ps Ho Hp). cbn [events].
    cbn [fileRun fileStep]. rewrite fileRun_app.
    destruct (fileRun_processAll env cfg ps (queryCount st) (afterPoll c)
                FileClean eq_refl) as (s' & -> & Hs').
    rewrite fileRun_app, fileRun_reportStats.
    destruct s'; [discriminate|reflexivity|reflexivity].
  - now rewrite (cycle_poll_error env cfg st c e Ho Hp).
Qed.

(** X13.  Over any number of iterations the loop handles the output file
    in order: it opens a file only when none is open, polls and writes
    only while one is open, flushes the writer before it closes a file
    that was written to, closes each file it opened, at the latest before
    the next pause, also when the poll fails, and pauses only with the
    file closed. *)
Theorem loop_file_discipline (env : Env) (cfg : Config) (n : nat)
    (st : LoopState) (c : Calls) :
  fileRun FileClosed (events (loop env cfg n st c)) = Some FileClosed.
Proof.
  revert st c. induction n as [|n IH]; intros st c; [reflexivity|].
  destruct (result (cycle env cfg st c)) as [st'|msg] eqn:Hr.
  - rewrite (loop_next env cfg n st st' c Hr). cbn [events].
    rewrite fileRun_app, fileRun_cycle. apply IH.
  - rewrite (loop_stop env cfg n st c msg Hr). cbn [events].
    apply fileRun_cycle.
Qed.

(** * The keyword tests against each other *)

(** A keyword in lower case that occurs in a text as it stands also
    occurs in the text lower-cased. *)
Lemma Contains_mentions (info kw : string) :
  strings.ToLower kw = kw ->
  strings.Contains info kw = true -> mentions info kw = true.
Proof.
  intros Hkw H. apply mentions_iff.
  apply Contains_iff in H as (pre & post & ->).
  now exists pre, kw, post.
Qed.

Lemma isQuery_mentions (info : string) :
  isQuery info = true ->
  exists kw, In kw keywords /\ mentions info kw = true.
Proof.
  intros H. apply isQuery_iff in H as (kw & Hin & Hocc).
  exists kw. split; [exact Hin|].
  apply Contains_mentions; [|now apply Contains_occurs].
  cbn in Hin. repeat (destruct Hin as [<-|Hin]; [reflexivity|]). easy.
Qed.

(** X14.  The tests on the statement as stored are narrower than the
    lower-casing ones: every statement the [-q] filter keeps is of one of
    the kinds the colour switch knows, a statement that holds [select] as
    stored is classified as a select, and the verbose label is SELECT
    exactly when the classification is select.  That the filter is
    strictly narrower shows on the upper-case statement. *)
Theorem stored_tests_are_narrower (info : string) :
  (isQuery info = true -> classify info <> CatUnknown) /\
  (strings.Contains info "select" = true -> classify info = CatSelect) /\
  (queryType info = "SELECT" <-> classify info = CatSelect) /\
  (isQuery "SELECT 1" = false /\ classify "SELECT 1" = CatSelect).
Proof.
  split; [|split; [|split; [|now split]]].
  - intros H. destruct (isQuery_mentions info H) as (kw & Hin & Hm).
    unfold classify. cbn in Hin.
    repeat (destruct Hin as [<-|Hin];
            [rewrite ?Hm, ?orb_true_r;
             repeat match goal with
                    | |- context [mentions info ?k] => destruct (mentions info k)
                    end; cbn; discriminate|]).
    easy.
  - intros H. unfold classify.
    now rewrite (Contains_mentions info "select" eq_refl H).
  - unfold queryType, classify. fold (mentions info "select").
    destruct (mentions info "select"); [easy|].
    split.
    + destruct (strings.Contains (strings.ToLower info) "show"); discriminate.
    + repeat match goal with
             | |- context [mentions info ?k] => destruct (mentions info k)
             end; cbn; discriminate.
Qed.

(** * Console and file *)

(** On ASCII text the first hundred runes are the first hundred bytes. *)
Lemma truncateRunes_ascii (n : nat) (s : string) :
  asciiText s = true -> truncateRunes n 0 s = substring 0 n s.
Proof.
  revert n. induction s as [|c s IH]; intros [|n] H; try reflexivity.
  cbn [asciiText] in H. apply andb_true_iff in H as [Hc Hs].
  cbn [truncateRunes substring]. unfold utf8.width.
  apply N.ltb_lt in Hc.
  replace (N_of_ascii c <? 194)%N with true by (symmetry; apply N.ltb_lt; lia).
  cbn [Nat.sub]. now rewrite IH.
Qed.





(** * The monitoring query *)

Lemma occurs_inside (sub s pre post : string) :
  occurs sub s -> occurs sub (pre ++ s ++ post).
Proof.
  intros (a & b & ->). exists (pre ++ a), (b ++ post).
  now rewrite !append_assoc.
Qed.

(** X16.  The test for the program's own query matches the statement
    [getProcessList] sends: a session whose INFO holds that statement is
    dropped when [-d] is off, whatever its other fields and whatever [-q]
    says; with [-d] on it is kept, also under [-q]. *)
Theorem own_query_is_recognised (env : Env) (cfg : Config) (p : Process)
    (qc : Z) (c : Calls) (pre post : string) :
  sql.String (Info p) = pre ++ processListQuery ++ post ->
  (debugFlag cfg = false -> events (processOne env cfg p qc c) = []) /\
  (debugFlag cfg = true -> kept cfg p = true).
Proof.
  intros Hinfo.
  assert (Hm : isMonitoringQuery (sql.String (Info p)) = true).
  { rewrite Hinfo. apply isMonitoringQuery_iff.
    split; apply occurs_inside, Contains_occurs; reflexivity. }
  assert (Hq : isQuery (sql.String (Info p)) = true).
  { rewrite Hinfo. apply isQuery_iff. exists "create".
    split; [cbn; tauto|]. apply occurs_inside, Contains_occurs. reflexivity. }
  split; intros Hd.
  - rewrite processOne_dropped; [reflexivity|].
    unfold kept, skipMonitoring. now rewrite Hd, Hm.
  - unfold kept, skipMonitoring, skipNonQuery. rewrite Hd, Hq.
    now destruct (queryFlag cfg).
Qed.

(** The theorem on a session that runs the statement itself. *)
Lemma own_query_is_recognised_witness :
  events (processOne (world opensFine (fun _ => inl []) writesFine true)
            (flags true false) (session 5 "executing" processListQuery) 0 noCalls) = [] /\
  kept (flags true true) (session 5 "executing" processListQuery) = true.
Proof.
  split.
  - apply (own_query_is_recognised
             (world opensFine (fun _ => inl []) writesFine true)
             (flags true false) (session 5 "executing" processListQuery) 0 noCalls
             "" "").
    + cbn [Info session sql.String]. now rewrite append_nil_r.
    + reflexivity.
  - apply (own_query_is_recognised
             (world opensFine (fun _ => inl []) writesFine true)
             (flags true true) (session 5 "executing" processListQuery) 0 noCalls
             "" "").
    + cbn [Info session sql.String]. now rewrite append_nil_r.
    + reflexivity.
Defined.

(** * The name of the output file *)

Lemma append_inj_l (a x y : string) : a ++ x = a ++ y -> x = y.
Proof.
  induction a as [|c a IH]; cbn; [easy|].
  intros H. injection H as H. now apply IH.
Qed.

Lemma append_inj_r (x y b : string) : x ++ b = y ++ b -> x = y.
Proof.
  revert y. induction x as [|c x IH]; intros [|d y] H; cbn in H.
  - reflexivity.
  - apply (f_equal String.length) in H. cbn in H.
    rewrite length_append in H. lia.
  - apply (f_equal String.length) in H. cbn in H.
    rewrite length_append in H. lia.
  - injection H as -> H. now rewrite (IH _ H).
Qed.

(** X17.  For a given [-f], the name of the output file and the date
    string determine each other: two cycles append to the same file
    exactly when their dates format alike, so the file changes when the
    date does and not before. *)
Theorem outputFilename_follows_the_date (cfg : Config) (date1 date2 : string) :
  outputFilename cfg date1 = outputFilename cfg date2 <-> date1 = date2.
Proof.
  split; [|now intros ->].
  unfold outputFilename.
  destruct (negb (fileFlag cfg =? ""))%string; intros H.
  - apply append_inj_l in H. apply append_inj_l in H.
    now apply append_inj_r in H.
  - apply append_inj_l in H. now apply append_inj_r in H.
Qed.

(** * The whole program *)

(** X18.  The program dies for three reasons only: [sql.Open] fails,
    [Ping] fails, or the day's file does not open.  In the first two
    cases nothing was printed, no file opened and no poll made, and the
    message of a failed [Ping] names the host; in the third the
    connection banner had been printed.  No error of a poll or of a write
    ends the program. *)
Theorem main_dies_for_three_reasons (os : OS) (env : Env) (hostFlag : string)
    (cfg : Config) (n : nat) (msg : string) :
  result (snd (main os env hostFlag cfg n)) = Panic msg ->
  (sqlOpen os (buildDSN (readMySQLConfig os)
                 (connectHost hostFlag (readMySQLConfig os))) = Some msg /\
   main os env hostFlag cfg n =
     (None, {| result := Panic msg; calls := noCalls; events := [] |})) \/
  (exists e,
     Ping os = Some e /\
     msg = "Failed to connect to " ++
           connectHost hostFlag (readMySQLConfig os) ++ ": " ++ e /\
     main os env hostFlag cfg n =
       (None, {| result := Panic msg; calls := noCalls; events := [] |})) \/
  (exists k name,
     openFile env k name = Some msg /\
     fst (main os env hostFlag cfg n) =
       Some (color.Sprint (NoColor os) [color.FgGreen]
               ("Connected successfully to " ++
                connectHost hostFlag (readMySQLConfig os) ++ " " ++ checkMark ++ nl))).
Proof.
  unfold main, startup, testConnection.
  destruct (sqlOpen os _) as [e|] eqn:Hopen.
  - cbn. intros H. injection H as <-. left. now split.
  - destruct (Ping os) as [e|] eqn:Hping.
    + cbn. intros H. injection H as <-. right. left. exists e. now repeat split.
    + cbn [snd fst]. unfold bind at 1. cbn [now result calls events].
      intros H. right. right.
      apply loop_panic_is_open_error in H as (k & name & H).
      exists k, name. now split.
Qed.

(** The theorem on the system whose server refuses the connection:
    nothing was opened or polled. *)
Lemma main_dies_for_three_reasons_witness :
  events (snd (main homeless serverDown "" (flags false false) 3)) = [].
Proof.
  destruct (main_dies_for_three_reasons homeless serverDown "" (flags false false) 3
              "Failed to connect to localhost: dial tcp 127.0.0.1:3306: connect: connection refused"
              eq_refl)
    as [[H _] | [(e & _ & _ & H) | (k & name & H & _)]].
  - discriminate H.
  - now rewrite H.
  - discriminate H.
Defined.

(** * The verbose flag *)

Lemma withoutVerbose_app (a b : list Event) :
  withoutVerbose (a ++ b) = (withoutVerbose a ++ withoutVerbose b)%list.
Proof. apply filter_app. Qed.

Lemma quiet_processOne (env : Env) (cfg : Config) (p : Process) (qc : Z) (c : Calls) :
  result (processOne env (quiet cfg) p qc c) = result (processOne env cfg p qc c) /\
  calls (processOne env (quiet cfg) p qc c) = calls (processOne env cfg p qc c) /\
  events (processOne env (quiet cfg) p qc c) =
    withoutVerbose (events (processOne env cfg p qc c)).
Proof.
  rewrite !processOne_run.
  change (kept (quiet cfg) p) with (kept cfg p).
  destruct (kept cfg p); [|now repeat split].
  rewrite !emitRecord_run. cbn [result calls events].
  change (countsAsQuery (quiet cfg) p) with (countsAsQuery cfg p).
  repeat split.
  rewrite withoutVerbose_app. f_equal.
  - unfold preamble. change (countsAsQuery (quiet cfg) p) with (countsAsQuery cfg p).
    cbn [verboseFlag quiet].
    destruct (verboseFlag cfg), (countsAsQuery cfg p); reflexivity.
  - destruct (writeString env (writes c) (fileOutput env c p)); reflexivity.
Qed.

Lemma quiet_processAll (env : Env) (cfg : Config) (ps : list Process)
    (qc : Z) (c : Calls) :
  result (processAll env (quiet cfg) ps qc c) = result (processAll env cfg ps qc c) /\
  calls (processAll env (quiet cfg) ps qc c) = calls (processAll env cfg ps qc c) /\
  events (processAll env (quiet cfg) ps qc c) =
    withoutVerbose (events (processAll env cfg ps qc c)).
Proof.
  revert qc c. induction ps as [|p ps IH]; intros qc c; [now repeat split|].
  rewrite !processAll_cons. cbn [result calls events].
  change (kept (quiet cfg) p) with (kept cfg p).
  change (countsAsQuery (quiet cfg) p) with (countsAsQuery cfg p).
  destruct (quiet_processOne env cfg p qc c) as (_ & Hc & He).
  rewrite Hc, He, withoutVerbose_app.
  destruct (IH (if kept cfg p && countsAsQuery cfg p then incr qc else qc)
              (calls (processOne env cfg p qc c))) as (IHr & IHc & IHe).
  now rewrite IHr, IHc, IHe.
Qed.

Lemma quiet_reportStats (env : Env) (cfg : Config) (st : LoopState) (c : Calls) :
  withoutVerbose (events (reportStats env cfg st c)) = events (reportStats env cfg st c).
Proof.
  rewrite reportStats_run. destruct (debugFlag cfg); [|reflexivity].
  destruct (_ >? _)%Z; reflexivity.
Qed.

Lemma quiet_cycle (env : Env) (cfg : Config) (st : LoopState) (c : Calls) :
  result (cycle env (quiet cfg) st c) = result (cycle env cfg st c) /\
  calls (cycle env (quiet cfg) st c) = calls (cycle env cfg st c) /\
  events (cycle env (quiet cfg) st c) = withoutVerbose (events (cycle env cfg st c)).
Proof.
  destruct (openFile env (opens c) (filenameAt env cfg c)) as [e|] eqn:Ho.
  - rewrite (cycle_open_error env cfg st c e Ho).
    rewrite (cycle_open_error env (quiet cfg) st c e Ho). now repeat split.
  - destruct (processList env (polls c)) as [ps|e] eqn:Hp.
    + rewrite (cycle_polled env cfg st c ps Ho Hp).
      rewrite (cycle_polled env (quiet cfg) st c ps Ho Hp).
      cbn [result calls events].
      destruct (quiet_processAll env cfg ps (queryCount st) (afterPoll c))
        as (_ & Hc & He).
      change (counted (quiet cfg) ps) with (counted cfg ps).
      change (reportStats env (quiet cfg)) with (reportStats env cfg).
      rewrite Hc, He. repeat split.
      cbn [withoutVerbose filter]. fold (withoutVerbose).
      rewrite !withoutVerbose_app, quiet_reportStats. reflexivity.
    + rewrite (cycle_poll_error env cfg st c e Ho Hp).
      rewrite (cycle_poll_error env (quiet cfg) st c e Ho Hp). now repeat split.
Qed.

(** X19.  The verbose flag touches nothing but the console: a run with
    [-v], its "Debug: Found" lines left out, is the run without [-v],
    effect for effect, with the same outcome, the same loop state and the
    same calls made. *)
Theorem verbose_only_adds_console_lines (env : Env) (cfg : Config) (n : nat)
    (st : LoopState) (c : Calls) :
  result (loop env (quiet cfg) n st c) = result (loop env cfg n st c) /\
  calls (loop env (quiet cfg) n st c) = calls (loop env cfg n st c) /\
  events (loop env (quiet cfg) n st c) = withoutVerbose (events (loop env cfg n st c)).
Proof.
  revert st c. induction n as [|n IH]; intros st c; [now repeat split|].
  destruct (quiet_cycle env cfg st c) as (Hr & Hc & He).
  destruct (result (cycle env cfg st c)) as [st'|msg] eqn:E.
  - rewrite (loop_next env cfg n st st' c E).
    rewrite (loop_next env (quiet cfg) n st st' c Hr).
    cbn [result calls events]. rewrite Hc, He, withoutVerbose_app.
    destruct (IH st' (calls (cycle env cfg st c))) as (IHr & IHc & IHe).
    now rewrite IHr, IHc, IHe.
  - rewrite (loop_stop env cfg n st c msg E).
    rewrite (loop_stop env (quiet cfg) n st c msg Hr).
    cbn [result calls events]. now rewrite Hc, He.
Qed.
